(** * Property Price Predictor in Tunisia: the glue of [app.py]

    A shallow embedding of the Streamlit script [src/app.py]: the start-up
    phase (model and dataset loading, the city -> regions lookup), the form,
    and the processing of a submission.  One execution of the script is a
    computation that appends to a trace of rendering calls and external calls,
    and ends normally, by an uncaught exception, or by [st.stop()].

    Python [float]s are IEEE binary64 numbers and are modelled by Rocq's
    primitive floats; Python [str]s are modelled by [string] (UTF-8 bytes, for
    which the byte-wise lexicographic order is the code-point order Python
    uses to compare strings). *)

From Stdlib Require Import Floats.
From stdpp Require Import base option list sorting strings gmap.

#[local] Set Warnings "-clear-no-such-hyp".

Local Open Scope string_scope.

(** ** Python values and exceptions *)

(** The values that flow through the form: [None], a [str], a [float]. *)
Inductive value :=
| PyNone
| PyStr (s : string)
| PyFloat (x : float).

(** [v == s] for a string literal [s]. *)
Definition eq_str (v : value) (s : string) : bool :=
  match v with
  | PyStr s' => bool_decide (s' = s)
  | _ => false
  end.

(** The exception classes the script can tell apart.  [Exception] stands for
    any other class derived from [Exception]; [BaseException] for the classes
    outside of it ([KeyboardInterrupt], [SystemExit]). *)
Inductive exn_class :=
| FileNotFoundError
| KeyError
| ValueError
| IndexError
| Exception
| BaseException.

Record exn := Exn { exn_cls : exn_class; exn_str : string }.

(** [isinstance(e, FileNotFoundError)], the test of [except FileNotFoundError]. *)
Definition is_FileNotFoundError (e : exn) : bool :=
  match exn_cls e with FileNotFoundError => true | _ => false end.

(** [isinstance(e, Exception)], the test of [except Exception]. *)
Definition is_Exception (e : exn) : bool :=
  match exn_cls e with BaseException => false | _ => true end.

(** ** Lists: [sorted], [unique], [in], [index] *)

(** [sorted(l)] on strings.  The built-in sort is a merge sort on the
    comparison of the elements. *)
Definition sorted (l : list string) : list string := merge_sort String.le l.

(** [Series.unique()]: the distinct values, in order of first appearance. *)
Fixpoint unique_from (seen l : list string) : list string :=
  match l with
  | [] => []
  | x :: l' =>
      if bool_decide (x ∈ seen) then unique_from seen l'
      else x :: unique_from (x :: seen) l'
  end.

Definition unique (l : list string) : list string := unique_from [] l.

(** [x in l]. *)
Definition py_in (x : string) (l : list string) : bool := bool_decide (x ∈ l).

(** [l.index(x)]: the first position of [x], [ValueError] when absent. *)
Fixpoint index_from (i : nat) (x : string) (l : list string) : exn + nat :=
  match l with
  | [] => inl (Exn ValueError ("'" +:+ x +:+ "' is not in list"))
  | y :: l' => if bool_decide (y = x) then inr i else index_from (S i) x l'
  end.

Definition py_index (l : list string) (x : string) : exn + nat := index_from 0 x l.

(** ** Data frames *)

(** A frame is an ordered list of labelled columns. *)
Definition DataFrame (A : Type) := list (string * list A).

(** [df[name]]: the column labelled [name], [KeyError] when there is none. *)
Fixpoint getitem {A} (df : DataFrame A) (name : string) : exn + list A :=
  match df with
  | [] => inl (Exn KeyError ("'" +:+ name +:+ "'"))
  | (n, xs) :: df' => if bool_decide (n = name) then inr xs else getitem df' name
  end.

(** Selection of the entries of a column by a boolean mask. *)
Fixpoint mask_select {A} (mask : list bool) (xs : list A) : list A :=
  match mask, xs with
  | b :: mask', x :: xs' => if b then x :: mask_select mask' xs' else mask_select mask' xs'
  | _, _ => []
  end.

(** [df[mask]]: the rows of [df] where [mask] holds. *)
Definition select_rows {A} (df : DataFrame A) (mask : list bool) : DataFrame A :=
  map (fun c => (c.1, mask_select mask c.2)) df.

(** The columns of a frame. *)
Definition columns {A} (df : DataFrame A) : list string := map fst df.

(** ** The city -> regions lookup (lines 65-67) *)

(** [cities = sorted(df['city'].unique())] *)
Definition cities_of (df : DataFrame string) : exn + list string :=
  match getitem df "city" with
  | inl e => inl e
  | inr col => inr (sorted (unique col))
  end.

(** [sorted(df[df['city'] == city]['region'].unique())] *)
Definition regions_of (df : DataFrame string) (city : string) : exn + list string :=
  match getitem df "city" with
  | inl e => inl e
  | inr col =>
      match getitem (select_rows df (map (fun c => bool_decide (c = city)) col)) "region" with
      | inl e => inl e
      | inr regions => inr (sorted (unique regions))
      end
  end.

(** The dict comprehension [{city: ... for city in cities}]: the entries are
    inserted in the order of [cities]; the first value that raises ends it. *)
Fixpoint dict_comprehension (f : string → exn + list string) (keys : list string)
    (acc : gmap string (list string)) : exn + gmap string (list string) :=
  match keys with
  | [] => inr acc
  | k :: keys' =>
      match f k with
      | inl e => inl e
      | inr v => dict_comprehension f keys' (<[k := v]> acc)
      end
  end.

Definition city_to_regions_of (df : DataFrame string) (cities : list string)
    : exn + gmap string (list string) :=
  dict_comprehension (regions_of df) cities ∅.

(** The records of the dataset as (city, region) pairs. *)
Definition records (city_col region_col : list string) : list (string * string) :=
  zip city_col region_col.

(** ** Executions of the script *)

(** The static blocks of HTML and help text that the script renders. *)
Inductive static_block :=
| page_style      (* the <style> block, lines 14-44 *)
| instructions    (* the body of the expander, lines 171-178 *)
| footer.         (* the footer, lines 181-188 *)

(** What an execution does, in order: the calls to Streamlit and the calls to
    the file system and to the model. *)
Inductive event :=
| st_set_page_config (page_title : string)
| st_markdown_static (block : static_block)
| st_title (body : string)
| st_markdown (body : string)
| st_error (body : string)
| st_success (body : string)
| st_warning (body : string)
| st_form (key : string)
| st_subheader (body : string)
| st_columns (n : nat)
| st_selectbox (label : string) (options : list string) (index : nat)
| st_slider (label : string) (min_value max_value val step : float)
| st_number_input (label : string) (min_value max_value val step : float)
| st_form_submit_button (label : string)
| st_expander (label : string)
| call_joblib_load (path : string)
| call_read_csv (path : string)
| call_predict (input_data : DataFrame value).

(** How a block of statements ends: normally with a value, with an exception
    that propagates, or by [st.stop()]. *)
Inductive outcome (A : Type) :=
| Done (a : A)
| Raised (e : exn)
| Stopped.
Arguments Done {A} a.
Arguments Raised {A} e.
Arguments Stopped {A}.

Record Run (A : Type) := MkRun { trace : list event; result : outcome A }.
Arguments MkRun {A} trace result.
Arguments trace {A} r.
Arguments result {A} r.

#[global] Instance Run_ret : MRet Run := λ A a, MkRun [] (Done a).

#[global] Instance Run_bind : MBind Run := λ A B k m,
  match result m with
  | Done a => MkRun (trace m ++ trace (k a)) (result (k a))
  | Raised e => MkRun (trace m) (Raised e)
  | Stopped => MkRun (trace m) Stopped
  end.

Definition emit (ev : event) : Run unit := MkRun [ev] (Done tt).

Definition raise {A} (e : exn) : Run A := MkRun [] (Raised e).

(** [st.stop()] *)
Definition st_stop {A} : Run A := MkRun [] Stopped.

(** The result of a call that returns or raises. *)
Definition lift {A} (r : exn + A) : Run A :=
  match r with
  | inl e => raise e
  | inr a => mret a
  end.

(** [try: body  except <class> as e: handler e] *)
Definition try_except {A} (body : Run A) (catches : exn → bool) (handler : exn → Run A) : Run A :=
  match result body with
  | Raised e =>
      if catches e
      then MkRun (trace body ++ trace (handler e)) (result (handler e))
      else body
  | _ => body
  end.

(** ** The world outside the script *)

(** The pickled predictor: [model.predict(frame)] returns an array or raises. *)
Record Model := { predict : DataFrame value → exn + list float }.

(** The files: what [joblib.load] and [pd.read_csv] do at a path. *)
Record World := {
  joblib_load : string → exn + Model;
  read_csv : string → exn + DataFrame string }.

(** The state of the browser session: what the user entered in the widget
    with a given label ([None] for a widget left untouched), and whether the
    submit button was pressed. *)
Record Session := {
  entered : string → option value;
  pressed : bool }.

(** The session of a page that was just loaded. *)
Definition on_load : Session := {| entered := λ _, None; pressed := false |}.

(** ** Widgets *)

Local Open Scope float_scope.

(** The option shown by a select box: the one the user picked, when it is
    among [options], else the default [d]. *)
Definition chosen (s : Session) (label : string) (options : list string) (d : string) : string :=
  match entered s label with
  | Some (PyStr v) => if py_in v options then v else d
  | _ => d
  end.

(** [st.selectbox]: the option the user picked among [options], else the one
    at [index]; [None] when there are no options.  An [index] outside of a
    non-empty list of options is refused. *)
Definition selectbox (s : Session) (label : string) (options : list string) (index : nat)
    : Run value :=
  emit (st_selectbox label options index);;
  match options !! index with
  | None =>
      match options with
      | [] => mret PyNone
      | _ => raise (Exn Exception "Selectbox index must be between 0 and length of options")
      end
  | Some d => mret (PyStr (chosen s label options d))
  end.

(** A number the user entered is the widget's value when it lies between
    [min_value] and [max_value]. *)
Definition bounded (s : Session) (label : string) (min_value max_value val : float) : float :=
  match entered s label with
  | Some (PyFloat x) => if (min_value <=? x) && (x <=? max_value) then x else val
  | _ => val
  end.

(** [st.slider] *)
Definition slider (s : Session) (label : string) (min_value max_value val step : float)
    : Run float :=
  emit (st_slider label min_value max_value val step);;
  mret (bounded s label min_value max_value val).

(** [st.number_input] *)
Definition number_input (s : Session) (label : string) (min_value max_value val step : float)
    : Run float :=
  emit (st_number_input label min_value max_value val step);;
  mret (bounded s label min_value max_value val).

(** [st.form_submit_button] *)
Definition form_submit_button (s : Session) (label : string) : Run bool :=
  emit (st_form_submit_button label);;
  mret (pressed s).

(** ** The script *)

(** [d[k]] on the lookup, [KeyError] when [k] is not a key. *)
Definition dict_getitem (d : gmap string (list string)) (k : value) : exn + list string :=
  match k with
  | PyStr c =>
      match d !! c with
      | Some v => inr v
      | None => inl (Exn KeyError ("'" +:+ c +:+ "'"))
      end
  | _ => inl (Exn KeyError "None")
  end.

(** [a[0]] on the array of predictions. *)
Definition getitem0 (a : list float) : exn + float :=
  match a with
  | x :: _ => inr x
  | [] => inl (Exn IndexError "index 0 is out of bounds for axis 0 with size 0")
  end.

(** The values read from the form. *)
Record Form := {
  category : value;
  type_property : value;
  city : value;
  region : value;
  room_count : float;
  bathroom_count : float;
  size : float;
  submitted : bool }.

(** Lines 139-147: the frame built for the model. *)
Definition input_data (f : Form) : DataFrame value :=
  [ ("category", [category f]);
    ("room_count", [PyFloat (room_count f)]);
    ("bathroom_count", [PyFloat (bathroom_count f)]);
    ("size", [PyFloat (size f)]);
    ("type", [type_property f]);
    ("city", [city f]);
    ("region", [region f]) ].

Definition model_path : string := "property_price_model.pkl".
Definition dataset_path : string := "cleaned_property_prices_tunisia.csv".

Definition model_missing_msg : string :=
  "Model file 'property_price_model.pkl' not found. Please ensure it is in the same directory.".
Definition size_msg : string := "Size must be greater than 0.".
Definition counts_msg : string := "Room count and bathroom count cannot be negative.".
Definition rental_label : string := "This is an **estimated monthly rental price**.".
Definition purchase_label : string := "This is an **estimated purchase price**.".
Definition high_rent_msg : string :=
  "The predicted rental price seems unusually high. Verify input details or model data.".
Definition low_sale_msg : string :=
  "The predicted sale price seems unusually low. Verify input details or model data.".

(** Lines 6-48: page configuration, style, title and description. *)
Definition header : Run unit :=
  emit (st_set_page_config "Property Price Predictor in Tunisia");;
  emit (st_markdown_static page_style);;
  emit (st_title "🏠 Property Price Predictor in Tunisia");;
  emit (st_markdown "Enter the property details below to predict its price in Tunisian Dinar (TND).").

(** Lines 51-55. *)
Definition load_model (w : World) : Run Model :=
  try_except
    (emit (call_joblib_load model_path);; lift (joblib_load w model_path))
    is_FileNotFoundError
    (λ _, emit (st_error model_missing_msg);; st_stop).

(** Lines 58-63.  The first call of the cached function runs its body. *)
Definition load_data (w : World) : Run (DataFrame string) :=
  emit (call_read_csv dataset_path);; lift (read_csv w dataset_path).

(** Line 95: [cities.index("Tunis") if "Tunis" in cities else 0], and line 103
    with "Autres villes". *)
Definition default_index (options : list string) (preferred : string) : exn + nat :=
  if py_in preferred options then py_index options preferred else inr 0%nat.

(** The options of the Category and Type select boxes (lines 80 and 87). *)
Definition categories : list string :=
  ["Appartements"; "Villas"; "Locaux industriels"; "Offices"; "Vacation Rentals";
   "Shared Housing"]%string.

Definition types : list string := ["À Louer"; "À Vendre"]%string.

(** Lines 70-128: the form. *)
Definition render_form (cities : list string) (city_to_regions : gmap string (list string))
    (s : Session) : Run Form :=
  emit (st_form "property_form");;
  emit (st_subheader "📝 Property Details");;
  emit (st_columns 2);;
  category ← selectbox s "Category" categories 0;
  type_property ← selectbox s "Type" types 0;
  i ← lift (default_index cities "Tunis");
  city ← selectbox s "City" cities i;
  regions ← lift (dict_getitem city_to_regions city);
  j ← lift (default_index regions "Autres villes");
  region ← selectbox s "Region" regions j;
  room_count ← slider s "Number of Rooms" 0 10 2 1;
  bathroom_count ← slider s "Number of Bathrooms" 0 5 1 1;
  size ← number_input s "Size (m²)" 20 1000 100 5;
  submitted ← form_submit_button s "🔍 Predict Price";
  mret {| category := category; type_property := type_property; city := city;
          region := region; room_count := room_count;
          bathroom_count := bathroom_count; size := size; submitted := submitted |}.

Section Script.

(** The rendering of a price by the format [{:,.2f}]. *)
Variable format_price : float → string.

(** Lines 150-167: the prediction and its display. *)
Definition predict_and_show (model : Model) (f : Form) : Run unit :=
  try_except
    (emit (call_predict (input_data f));;
     a ← lift (predict model (input_data f));
     predicted_price ← lift (getitem0 a);
     emit (st_success ("**Predicted Price**: " +:+ format_price predicted_price +:+ " TND"));;
     (if eq_str (type_property f) "À Louer"
      then emit (st_markdown rental_label)
      else emit (st_markdown purchase_label));;
     (if eq_str (type_property f) "À Louer" && (10000 <? predicted_price)
      then emit (st_warning high_rent_msg)
      else if eq_str (type_property f) "À Vendre" && (predicted_price <? 10000)
      then emit (st_warning low_sale_msg)
      else mret tt))
    is_Exception
    (λ e, emit (st_error ("Error making prediction: " +:+ exn_str e))).

(** Lines 132-167: the body of [if submitted:]. *)
Definition process (model : Model) (f : Form) : Run unit :=
  if size f <=? 0 then emit (st_error size_msg)
  else if (room_count f <? 0) || (bathroom_count f <? 0) then emit (st_error counts_msg)
  else predict_and_show model f.

(** Lines 169-188: the instructions and the footer. *)
Definition closing : Run unit :=
  emit (st_expander "ℹ️ Instructions & Notes");;
  emit (st_markdown_static instructions);;
  emit (st_markdown_static footer).

(** The whole script, run once from top to bottom. *)
Definition script (w : World) (s : Session) : Run unit :=
  header;;
  model ← load_model w;
  df ← load_data w;
  cities ← lift (cities_of df);
  city_to_regions ← lift (city_to_regions_of df cities);
  f ← render_form cities city_to_regions s;
  (if submitted f then process model f else mret tt);;
  closing.

End Script.

Local Close Scope float_scope.

(** ** Sample data *)

(** A small dataset, a model with a fixed answer, and the worlds and sessions
    used to run the script on concrete inputs. *)
Definition sample_df : DataFrame string :=
  [ ("price", ["1200"; "350000"; "900"; "1500"]);
    ("city", ["Tunis"; "Ariana"; "Tunis"; "Tunis"]);
    ("region", ["La Marsa"; "Raoued"; "Autres villes"; "La Marsa"]) ]%string.

Definition sample_cities : list string := ["Ariana"; "Tunis"]%string.

Definition sample_lookup : gmap string (list string) :=
  <["Tunis" := ["Autres villes"; "La Marsa"]%string]> (<["Ariana" := ["Raoued"]%string]> ∅).

Definition constant_model (p : float) : Model := {| predict := λ _, inr [p] |}.

Definition failing_model : Model :=
  {| predict := λ _, inl (Exn ValueError "columns are missing: {'size'}") |}.

Definition sample_world (m : Model) : World :=
  {| joblib_load := λ _, inr m; read_csv := λ _, inr sample_df |}.

Definition world_without_model : World :=
  {| joblib_load := λ _, inl (Exn FileNotFoundError
       "[Errno 2] No such file or directory: 'property_price_model.pkl'");
     read_csv := λ _, inr sample_df |}.

Definition world_without_dataset : World :=
  {| joblib_load := λ _, inr (constant_model 15000);
     read_csv := λ _, inl (Exn FileNotFoundError
       "[Errno 2] No such file or directory: 'cleaned_property_prices_tunisia.csv'") |}.

(** The user presses the button without touching the controls. *)
Definition untouched_submit : Session := {| entered := λ _, None; pressed := true |}.

(** The values of the form with a given type, size and number of rooms. *)
Definition sample_form (type_property : string) (size room_count : float) : Form :=
  {| category := PyStr "Appartements"; type_property := PyStr type_property;
     city := PyStr "Tunis"; region := PyStr "Autres villes";
     room_count := room_count; bathroom_count := 1; size := size; submitted := true |}.

(** A rendering of prices for the sample runs. *)
Definition sample_format (p : float) : string :=
  if PrimFloat.eqb p 15000 then "15,000.00"
  else if PrimFloat.eqb p 5000 then "5,000.00" else "0.00".

(** ** Vocabulary of the properties *)

(** All the columns of a frame have the same number of rows. *)
Definition rectangular {A} (df : DataFrame A) : bool :=
  match df with
  | [] => true
  | c :: df' => forallb (λ c', Nat.eqb (length c'.2) (length c.2)) df'
  end.

(** [x] is the first element of [l] in alphabetical order. *)
Definition first_alphabetically (x : string) (l : list string) : Prop :=
  x ∈ l ∧ Forall (String.le x) l.

(** The text [body] contains [phrase]. *)
Definition mentions (body phrase : string) : bool :=
  if String.index 0 phrase body is Some _ then true else false.

(** The calls that render the form and its controls. *)
Definition is_form_control (ev : event) : bool :=
  match ev with
  | st_form _ | st_selectbox _ _ _ | st_slider _ _ _ _ _
  | st_number_input _ _ _ _ _ | st_form_submit_button _ => true
  | _ => false
  end.

(** The calls to the model. *)
Definition is_prediction (ev : event) : bool :=
  match ev with
  | call_predict _ => true
  | _ => false
  end.

(** The reads of the dataset file. *)
Definition is_dataset_read (ev : event) : bool :=
  match ev with
  | call_read_csv _ => true
  | _ => false
  end.

(** What reading the dataset and building the lookup (lines 60-67) raise, if
    they do: the exception of [pd.read_csv] for a file that is absent or
    cannot be parsed, the [KeyError] for a frame without the city or the
    region column. *)
Definition dataset_failure (w : World) : option exn :=
  match read_csv w dataset_path with
  | inl e => Some e
  | inr df =>
      match cities_of df with
      | inl e => Some e
      | inr cities =>
          match city_to_regions_of df cities with
          | inl e => Some e
          | inr _ => None
          end
      end
  end.

(** A [float] that is a number: [x == x] fails for NaN only. *)
Definition is_number (x : float) : bool := PrimFloat.eqb x x.

(** The values of the form are within the bounds of its controls. *)
Definition within_controls (f : Form) : Prop :=
  (PrimFloat.leb 20 (size f) = true ∧ PrimFloat.leb (size f) 1000 = true) ∧
  (PrimFloat.leb 0 (room_count f) = true ∧ PrimFloat.leb (room_count f) 10 = true) ∧
  (PrimFloat.leb 0 (bathroom_count f) = true ∧ PrimFloat.leb (bathroom_count f) 5 = true).

(** The values of the form pass the two checks of lines 133-136. *)
Definition passes_validation (f : Form) : bool :=
  negb (PrimFloat.leb (size f) 0) &&
  negb (PrimFloat.ltb (room_count f) 0 || PrimFloat.ltb (bathroom_count f) 0).

(** What is displayed for a price [p] and the values [f] of the form: the
    price, the label of its kind, and the warning if there is one. *)
Definition shown (format_price : float → string) (f : Form) (p : float) : list event :=
  [ st_success ("**Predicted Price**: " +:+ format_price p +:+ " TND");
    st_markdown (if eq_str (type_property f) "À Louer" then rental_label else purchase_label) ]
  ++ (if eq_str (type_property f) "À Louer" && PrimFloat.ltb 10000 p
      then [st_warning high_rent_msg]
      else if eq_str (type_property f) "À Vendre" && PrimFloat.ltb p 10000
      then [st_warning low_sale_msg]
      else []).

(** What [model.predict(input_data)[0]] raises, if it does. *)
Definition failure (m : Model) (f : Form) : option exn :=
  match predict m (input_data f) with
  | inl e => Some e
  | inr a => match getitem0 a with inl e => Some e | inr _ => None end
  end.

(** The calls of lines 70-128: the form, its layout and its controls. *)
Definition form_event (ev : event) : bool :=
  match ev with
  | st_form _ | st_subheader _ | st_columns _ | st_selectbox _ _ _
  | st_slider _ _ _ _ _ | st_number_input _ _ _ _ _ | st_form_submit_button _ => true
  | _ => false
  end.

(** The error messages and the displays of a price. *)
Definition is_error (ev : event) : bool :=
  match ev with
  | st_error _ => true
  | _ => false
  end.

Definition is_success (ev : event) : bool :=
  match ev with
  | st_success _ => true
  | _ => false
  end.

(** The number of events of a trace that satisfy [P]. *)
Definition count (P : event → bool) (t : list event) : nat :=
  length (filter (λ ev, P ev = true) t).

(** More sample data: a model file that is not a pickle, a dataset without
    rows, a model that is interrupted, a model that returns no prediction,
    and the sample dataset with its rows repeated in another order. *)
Definition world_with_bad_model : World :=
  {| joblib_load := λ _, inl (Exn Exception "invalid load key, 'x'.");
     read_csv := λ _, inr sample_df |}.

Definition empty_df : DataFrame string :=
  [ ("price", []); ("city", []); ("region", []) ]%string.

Definition world_with_empty_dataset : World :=
  {| joblib_load := λ _, inr (constant_model 15000); read_csv := λ _, inr empty_df |}.

Definition interrupted_model : Model :=
  {| predict := λ _, inl (Exn BaseException "KeyboardInterrupt") |}.

Definition silent_model : Model := {| predict := λ _, inr [] |}.

Definition shuffled_df : DataFrame string :=
  [ ("city", ["Ariana"; "Tunis"; "Tunis"; "Tunis"; "Ariana"]);
    ("region", ["Raoued"; "Autres villes"; "La Marsa"; "Autres villes"; "Raoued"]) ]%string.

(** * Properties *)

Local Close Scope string_scope.

(** ** [unique] and [sorted] *)

Lemma unique_from_spec seen l x :
  x ∈ unique_from seen l ↔ x ∈ l ∧ x ∉ seen.
Proof.
  revert seen. induction l as [|y l IH]; intros seen; simpl.
  - set_solver.
  - case_bool_decide as Hy.
    + rewrite IH. set_solver.
    + rewrite elem_of_cons, IH. destruct (decide (x = y)); set_solver.
Qed.

Lemma unique_from_NoDup seen l : NoDup (unique_from seen l).
Proof.
  revert seen. induction l as [|y l IH]; intros seen; simpl.
  - constructor.
  - case_bool_decide; [apply IH|].
    constructor; [|apply IH].
    rewrite unique_from_spec. set_solver.
Qed.

Lemma elem_of_unique l x : x ∈ unique l ↔ x ∈ l.
Proof. unfold unique. rewrite unique_from_spec. set_solver. Qed.

Lemma NoDup_unique l : NoDup (unique l).
Proof. apply unique_from_NoDup. Qed.

Lemma elem_of_sorted l x : x ∈ sorted l ↔ x ∈ l.
Proof. unfold sorted. by rewrite merge_sort_Permutation. Qed.

Lemma NoDup_sorted l : NoDup l → NoDup (sorted l).
Proof. unfold sorted. by rewrite merge_sort_Permutation. Qed.

Lemma Sorted_sorted l : Sorted String.le (sorted l).
Proof. apply (Sorted_merge_sort String.le). Qed.

(** The head of a sorted list is its least element. *)
Lemma Sorted_head_le x l :
  Sorted String.le (x :: l) → Forall (String.le x) (x :: l).
Proof.
  intros Hs. apply Sorted_StronglySorted in Hs; [|apply _].
  apply StronglySorted_cons in Hs as [Hx _].
  constructor; [reflexivity | done].
Qed.

(** ** [in] and [index] *)

Lemma index_from_spec i x l :
  x ∈ l → ∃ n, index_from i x l = inr (i + n) ∧ l !! n = Some x.
Proof.
  revert i. induction l as [|y l IH]; intros i Hx; simpl.
  - by apply elem_of_nil in Hx.
  - case_bool_decide as Hy.
    + exists 0. subst. split; [f_equal; lia | done].
    + apply elem_of_cons in Hx as [->|Hx]; [done|].
      destruct (IH (S i) Hx) as (n & Hn & Hl).
      exists (S n). split; [rewrite Hn; f_equal; lia | done].
Qed.

Lemma py_index_spec x l :
  x ∈ l → ∃ n, py_index l x = inr n ∧ l !! n = Some x.
Proof. intros Hx. apply (index_from_spec 0) in Hx. done. Qed.

(** The default index always designates an option of a non-empty list: the
    preferred one when it is listed, the first one otherwise. *)
Lemma default_index_spec options preferred :
  ∃ i, default_index options preferred = inr i ∧
       options !! i = if py_in preferred options then Some preferred else head options.
Proof.
  unfold default_index, py_in. case_bool_decide as Hin.
  - destruct (py_index_spec _ _ Hin) as (n & -> & Hn). eauto.
  - exists 0. split; [done|]. by destruct options.
Qed.

(** ** Frames *)

Lemma getitem_select_rows {A} (df : DataFrame A) mask name :
  getitem (select_rows df mask) name =
    match getitem df name with
    | inl e => inl e
    | inr xs => inr (mask_select mask xs)
    end.
Proof.
  induction df as [|[n xs] df IH]; simpl; [done|].
  case_bool_decide; [done | apply IH].
Qed.

Lemma elem_of_mask_select (city_col region_col : list string) c r :
  r ∈ mask_select (map (λ c', bool_decide (c' = c)) city_col) region_col ↔
  (c, r) ∈ records city_col region_col.
Proof.
  unfold records. revert region_col.
  induction city_col as [|c' cs IH]; intros [|r' rs]; simpl;
    try (rewrite !elem_of_nil; tauto).
  case_bool_decide as Hc.
  - subst. rewrite !elem_of_cons, IH. naive_solver.
  - rewrite elem_of_cons, IH. naive_solver.
Qed.

(** Every city of the city column has a record when the two columns have the
    same length. *)
Lemma records_city_has_region (city_col region_col : list string) c :
  length city_col = length region_col → c ∈ city_col →
  ∃ r, (c, r) ∈ records city_col region_col.
Proof.
  unfold records. revert region_col.
  induction city_col as [|c' cs IH]; intros [|r' rs] Hlen Hc; simplify_eq/=.
  - by apply elem_of_nil in Hc.
  - apply elem_of_cons in Hc as [->|Hc].
    + exists r'. left.
    + destruct (IH rs) as [r Hr]; [lia | done |].
      exists r. by right.
Qed.

(** ** The dict comprehension *)

Lemma dict_comprehension_spec f keys acc :
  (∀ k, k ∈ keys → ∃ v, f k = inr v) →
  ∃ d, dict_comprehension f keys acc = inr d ∧
       ∀ k, d !! k = if bool_decide (k ∈ keys)
                     then match f k with inr v => Some v | inl _ => None end
                     else acc !! k.
Proof.
  revert acc. induction keys as [|k0 keys IH]; intros acc Hf; simpl.
  - by exists acc.
  - destruct (Hf k0) as [v0 Hv0]; [set_solver|]. rewrite Hv0.
    destruct (IH (<[k0:=v0]> acc)) as (d & -> & Hd); [set_solver|].
    exists d. split; [done|]. intros k. rewrite Hd.
    destruct (decide (k ∈ keys)) as [Hk|Hk].
    + rewrite !bool_decide_eq_true_2 by set_solver. done.
    + rewrite (bool_decide_eq_false_2 (k ∈ keys)) by done.
      destruct (decide (k = k0)) as [->|Hne].
      * rewrite bool_decide_eq_true_2 by set_solver.
        by rewrite lookup_insert_eq, Hv0.
      * rewrite bool_decide_eq_false_2 by set_solver.
        by rewrite lookup_insert_ne.
Qed.

(** ** The lookup built at start-up *)

Lemma getitem_elem_of {A} (df : DataFrame A) name xs :
  getitem df name = inr xs → (name, xs) ∈ df.
Proof.
  induction df as [|[n ys] df IH]; simpl; [done|].
  case_bool_decide; intros; simplify_eq; [left | right; auto].
Qed.

Lemma rectangular_rows {A} (c : string * list A) df x :
  rectangular (c :: df) = true → x ∈ c :: df → length x.2 = length c.2.
Proof.
  simpl. intros Hall [->|Hx]%elem_of_cons; [done|].
  induction df as [|c' df IH]; [by apply elem_of_nil in Hx|].
  simpl in Hall. apply andb_true_iff in Hall as [Hc' Hall].
  apply elem_of_cons in Hx as [->|Hx]; [by apply Nat.eqb_eq | auto].
Qed.

Lemma rectangular_length {A} (df : DataFrame A) a b xs ys :
  rectangular df = true → getitem df a = inr xs → getitem df b = inr ys →
  length xs = length ys.
Proof.
  intros Hrect Ha%getitem_elem_of Hb%getitem_elem_of.
  destruct df as [|c df]; [by apply elem_of_nil in Ha|].
  apply (rectangular_rows _ _ _ Hrect) in Ha, Hb. simpl in *. congruence.
Qed.

Lemma cities_of_spec df city_col :
  getitem df "city" = inr city_col →
  ∃ cities, cities_of df = inr cities ∧
    Sorted String.le cities ∧ NoDup cities ∧ ∀ c, c ∈ cities ↔ c ∈ city_col.
Proof.
  intros Hc. unfold cities_of. rewrite Hc. eexists. split; [done|].
  split; [apply Sorted_sorted|].
  split; [apply NoDup_sorted, NoDup_unique|].
  intros c. by rewrite elem_of_sorted, elem_of_unique.
Qed.

Lemma regions_of_spec df city_col region_col c :
  getitem df "city" = inr city_col → getitem df "region" = inr region_col →
  ∃ regions, regions_of df c = inr regions ∧
    Sorted String.le regions ∧ NoDup regions ∧
    ∀ r, r ∈ regions ↔ (c, r) ∈ records city_col region_col.
Proof.
  intros Hc Hr. unfold regions_of. rewrite Hc, getitem_select_rows, Hr.
  eexists. split; [done|].
  split; [apply Sorted_sorted|].
  split; [apply NoDup_sorted, NoDup_unique|].
  intros r. by rewrite elem_of_sorted, elem_of_unique, elem_of_mask_select.
Qed.

(** On a frame with a city and a region column the start-up phase builds the
    sorted list of cities and a lookup with one entry per city. *)
Lemma lookup_spec df city_col region_col :
  getitem df "city" = inr city_col → getitem df "region" = inr region_col →
  ∃ cities city_to_regions,
    cities_of df = inr cities ∧
    city_to_regions_of df cities = inr city_to_regions ∧
    Sorted String.le cities ∧ NoDup cities ∧ (∀ c, c ∈ cities ↔ c ∈ city_col) ∧
    ∀ c, city_to_regions !! c =
           if bool_decide (c ∈ city_col)
           then match regions_of df c with inr v => Some v | inl _ => None end
           else None.
Proof.
  intros Hc Hr.
  destruct (cities_of_spec _ _ Hc) as (cities & Hcities & Hsorted & Hnodup & Hin).
  destruct (dict_comprehension_spec (regions_of df) cities ∅) as (d & Hd & Hlookup).
  { intros c _. destruct (regions_of_spec df _ _ c Hc Hr) as (rs & -> & _). eauto. }
  exists cities, d. repeat split; try done; try apply Hin.
  intros c. rewrite Hlookup, lookup_empty.
  by rewrite (bool_decide_ext _ _ (Hin c)).
Qed.

(** C5: on a dataset with city and region columns the lookup is built, the
    city list is sorted, and every city of the dataset is mapped to a list of
    regions that is not empty, sorted, without duplicates, and made of exactly
    the regions of the records with that city. *)
Theorem city_to_regions_sound df city_col region_col :
  rectangular df = true →
  getitem df "city" = inr city_col → getitem df "region" = inr region_col →
  ∃ cities city_to_regions,
    cities_of df = inr cities ∧
    city_to_regions_of df cities = inr city_to_regions ∧
    Sorted String.le cities ∧
    ∀ c, c ∈ city_col →
      ∃ regions, city_to_regions !! c = Some regions ∧
        regions ≠ [] ∧ Sorted String.le regions ∧ NoDup regions ∧
        ∀ r, r ∈ regions ↔ (c, r) ∈ records city_col region_col.
Proof.
  intros Hrect Hc Hr.
  destruct (lookup_spec _ _ _ Hc Hr)
    as (cities & d & Hcities & Hd & Hsorted & _ & _ & Hlookup).
  exists cities, d. repeat split; try done.
  intros c Hin.
  destruct (regions_of_spec df _ _ c Hc Hr) as (rs & Hrs & Hs & Hnd & Hmem).
  exists rs. rewrite Hlookup, bool_decide_eq_true_2, Hrs by done.
  repeat split; try done; try apply Hmem.
  intros ->.
  destruct (records_city_has_region city_col region_col c) as [r Hrec]; [|done|].
  - by apply (rectangular_length df "city" "region").
  - apply Hmem in Hrec. by apply elem_of_nil in Hrec.
Qed.

(** ** Comparisons of floats *)

Local Open Scope float_scope.

(** A comparison with a constant is decided on the IEEE datum of the float. *)
Ltac by_float_cases x :=
  rewrite ?FloatAxioms.ltb_spec, ?FloatAxioms.leb_spec in *;
  destruct (Prim2SF x) as [[]|[]| |[] ? ?];
  vm_compute in *; congruence.

Ltac by_number_cases x Hn :=
  unfold is_number in Hn;
  rewrite ?FloatAxioms.ltb_spec, ?FloatAxioms.leb_spec, ?FloatAxioms.eqb_spec in *;
  destruct (Prim2SF x) as [[]|[]| |[] ? ?];
  first [ clear Hn; vm_compute in *; congruence | vm_compute in Hn; discriminate Hn ].

Lemma positive_not_le_0 x : (0 <? x) = true → (x <=? 0) = false.
Proof. intros H. by_float_cases x. Qed.

Lemma nonneg_not_lt_0 x : (0 <=? x) = true → (x <? 0) = false.
Proof. intros H. by_float_cases x. Qed.

Lemma at_least_20_not_le_0 x : (20 <=? x) = true → (x <=? 0) = false.
Proof. intros H. by_float_cases x. Qed.

Lemma not_le_0_positive x : is_number x = true → (x <=? 0) = false → (0 <? x) = true.
Proof. intros Hn H. by_number_cases x Hn. Qed.

Lemma not_lt_0_nonneg x : is_number x = true → (x <? 0) = false → (0 <=? x) = true.
Proof. intros Hn H. by_number_cases x Hn. Qed.

(** A bounded control returns a number within its bounds. *)
Lemma bounded_within s label lo hi val :
  (lo <=? val) = true → (val <=? hi) = true →
  (lo <=? bounded s label lo hi val) = true ∧ (bounded s label lo hi val <=? hi) = true.
Proof.
  intros Hlo Hhi. unfold bounded.
  destruct (entered s label) as [[| |x]|]; try done.
  destruct (lo <=? x) eqn:H1, (x <=? hi) eqn:H2; done.
Qed.

Local Close Scope float_scope.

(** ** Executions *)

Lemma bind_Done {A B} (m : Run A) (k : A → Run B) a :
  result m = Done a → m ≫= k = MkRun (trace m ++ trace (k a)) (result (k a)).
Proof. intros H. unfold mbind, Run_bind. by rewrite H. Qed.

(** Evaluation of the sequencing, leaving the widgets and the calls alone. *)
Ltac run_steps :=
  cbn [mbind Run_bind mret Run_ret result trace emit lift raise st_stop app
       slider number_input form_submit_button dict_getitem getitem0].

Lemma header_trace :
  header = MkRun (trace header) (Done tt).
Proof. reflexivity. Qed.

Lemma load_model_ok w m :
  joblib_load w model_path = inr m →
  load_model w = MkRun [call_joblib_load model_path] (Done m).
Proof. intros H. unfold load_model. rewrite H. reflexivity. Qed.

Lemma load_model_missing w e :
  joblib_load w model_path = inl e → is_FileNotFoundError e = true →
  load_model w = MkRun [call_joblib_load model_path; st_error model_missing_msg] Stopped.
Proof.
  intros H He. unfold load_model, try_except. rewrite H. simpl. rewrite He. reflexivity.
Qed.

Lemma load_model_cases w :
  (∃ m, load_model w = MkRun [call_joblib_load model_path] (Done m)) ∨
  (∃ o, load_model w = MkRun [call_joblib_load model_path] o ∧ ∀ m, o ≠ Done m) ∨
  load_model w = MkRun [call_joblib_load model_path; st_error model_missing_msg] Stopped.
Proof.
  unfold load_model, try_except.
  destruct (joblib_load w model_path) as [e|m]; simpl.
  - destruct (is_FileNotFoundError e); [by right; right|].
    right; left. by exists (Raised e).
  - left. by exists m.
Qed.

Lemma load_data_ok w df :
  read_csv w dataset_path = inr df →
  load_data w = MkRun [call_read_csv dataset_path] (Done df).
Proof. intros H. unfold load_data. rewrite H. reflexivity. Qed.

(** The ways for the dataset to fail. *)
Lemma absent_dataset_fails w e :
  read_csv w dataset_path = inl e → dataset_failure w = Some e.
Proof. intros H. unfold dataset_failure. by rewrite H. Qed.

Lemma missing_city_column_fails w df e :
  read_csv w dataset_path = inr df → getitem df "city" = inl e →
  dataset_failure w = Some e.
Proof. intros H He. unfold dataset_failure, cities_of. by rewrite H, He. Qed.

Lemma missing_region_column_fails w df city_col e :
  read_csv w dataset_path = inr df →
  getitem df "city" = inr city_col → city_col ≠ [] → getitem df "region" = inl e →
  dataset_failure w = Some e.
Proof.
  intros H Hc Hne He. unfold dataset_failure, cities_of. rewrite H, Hc.
  assert (∀ c, regions_of df c = inl e) as Hregions.
  { intros c. unfold regions_of. by rewrite Hc, getitem_select_rows, He. }
  destruct (sorted (unique city_col)) as [|c cities] eqn:Hcities.
  - destruct city_col as [|c city_col]; [done|].
    assert (c ∈ sorted (unique (c :: city_col))) as Hin.
    { rewrite elem_of_sorted, elem_of_unique. left. }
    rewrite Hcities in Hin. by apply elem_of_nil in Hin.
  - unfold city_to_regions_of. simpl. by rewrite Hregions.
Qed.

Section ScriptProperties.

Variable format_price : float → string.

(** C7: when the model file is missing the script shows the error message
    and stops: the execution ends by [st.stop()] right after the header,
    no form control is rendered and the model is never called. *)
Theorem missing_model_stops w s e :
  joblib_load w model_path = inl e → is_FileNotFoundError e = true →
  let r := script format_price w s in
  result r = Stopped ∧
  trace r = (trace header ++ [call_joblib_load model_path; st_error model_missing_msg])%list ∧
  Forall (λ ev, is_form_control ev = false ∧ is_prediction ev = false) (trace r).
Proof.
  intros H He r. subst r. unfold script.
  rewrite header_trace, (load_model_missing _ _ H He).
  split; [done|]. split; [done|].
  repeat constructor.
Qed.

(** C8: when reading the dataset raises (the file is absent or cannot be
    parsed) or the frame read lacks the city or region column, nothing handles
    the exception: the execution does not end normally, the dataset is read
    at most once, and no form control is rendered.  With the model loaded,
    the execution ends with that very exception right after the call to
    [read_csv]. *)
Theorem dataset_failure_halts w s e :
  dataset_failure w = Some e →
  let r := script format_price w s in
  result r ≠ Done tt ∧
  Forall (λ ev, is_form_control ev = false ∧ is_prediction ev = false) (trace r) ∧
  length (filter (λ ev, is_dataset_read ev = true) (trace r)) ≤ 1 ∧
  ∀ m, joblib_load w model_path = inr m →
    trace r = trace header ++ [call_joblib_load model_path; call_read_csv dataset_path] ∧
    result r = Raised e.
Proof.
  intros Hfail r. subst r. unfold script. rewrite header_trace.
  destruct (load_model_cases w) as [[m Hm]|[(o & Ho & Hno)|Hstop]].
  - rewrite Hm. run_steps. unfold load_data, dataset_failure in *.
    destruct (read_csv w dataset_path) as [e'|df]; run_steps.
    + simplify_eq. split_and!; [done | by repeat constructor | simpl; lia | done].
    + destruct (cities_of df) as [e'|cities]; run_steps.
      * simplify_eq. split_and!; [done | by repeat constructor | simpl; lia | done].
      * destruct (city_to_regions_of df cities) as [e'|city_to_regions]; [|done].
        run_steps. simplify_eq.
        split_and!; [done | by repeat constructor | simpl; lia | done].
  - rewrite Ho. destruct o as [m| |]; [by destruct (Hno m)|..]; simpl.
    all: split_and!; [done | by repeat constructor | simpl; lia |].
    all: intros m Hm; rewrite (load_model_ok _ _ Hm) in Ho; by simplify_eq.
  - rewrite Hstop. simpl.
    split_and!; [done | by repeat constructor | simpl; lia |].
    intros m Hm; rewrite (load_model_ok _ _ Hm) in Hstop; by simplify_eq.
Qed.

End ScriptProperties.

(** ** The form *)

Lemma chosen_elem_of s label options d :
  d ∈ options → chosen s label options d ∈ options.
Proof.
  intros Hd. unfold chosen, py_in.
  destruct (entered s label) as [[| v |]|]; try done.
  by case_bool_decide.
Qed.

Lemma chosen_untouched s label options d :
  entered s label = None → chosen s label options d = d.
Proof. intros H. unfold chosen. by rewrite H. Qed.

Lemma selectbox_Some s label options index d :
  options !! index = Some d →
  selectbox s label options index =
    MkRun [st_selectbox label options index] (Done (PyStr (chosen s label options d))).
Proof. intros H. unfold selectbox. rewrite H. reflexivity. Qed.

Lemma selectbox_nil s label index :
  selectbox s label [] index = MkRun [st_selectbox label [] index] (Done PyNone).
Proof. reflexivity. Qed.

(** What a form that was rendered to its end has shown and returned. *)
Lemma render_form_Done cities city_to_regions s f :
  result (render_form cities city_to_regions s) = Done f →
  ∃ i d regions j,
    default_index cities "Tunis" = inr i ∧ cities !! i = Some d ∧
    city f = PyStr (chosen s "City" cities d) ∧
    city_to_regions !! chosen s "City" cities d = Some regions ∧
    default_index regions "Autres villes" = inr j ∧
    region f = match regions !! j with
               | Some d' => PyStr (chosen s "Region" regions d')
               | None => PyNone
               end ∧
    category f = PyStr (chosen s "Category" categories "Appartements") ∧
    type_property f = PyStr (chosen s "Type" types "À Louer") ∧
    room_count f = bounded s "Number of Rooms" 0 10 2 ∧
    bathroom_count f = bounded s "Number of Bathrooms" 0 5 1 ∧
    size f = bounded s "Size (m²)" 20 1000 100 ∧
    submitted f = pressed s ∧
    trace (render_form cities city_to_regions s) =
      [ st_form "property_form"; st_subheader "📝 Property Details"; st_columns 2;
        st_selectbox "Category" categories 0; st_selectbox "Type" types 0;
        st_selectbox "City" cities i; st_selectbox "Region" regions j;
        st_slider "Number of Rooms" 0 10 2 1; st_slider "Number of Bathrooms" 0 5 1 1;
        st_number_input "Size (m²)" 20 1000 100 5;
        st_form_submit_button "🔍 Predict Price" ].
Proof.
  unfold render_form.
  destruct (default_index_spec cities "Tunis") as (i & Hi & Hd).
  rewrite Hi.
  rewrite (selectbox_Some s "Category" _ 0 "Appartements") by done.
  rewrite (selectbox_Some s "Type" _ 0 "À Louer") by done.
  run_steps.
  destruct (cities !! i) as [d|] eqn:Hcity.
  - rewrite (selectbox_Some s "City" _ _ d) by done. run_steps.
    destruct (city_to_regions !! chosen s "City" cities d) as [regions|] eqn:Hregions;
      run_steps; [|done].
    destruct (default_index_spec regions "Autres villes") as (j & Hj & Hd').
    rewrite Hj. run_steps.
    destruct (regions !! j) as [d'|] eqn:Hregion.
    + rewrite (selectbox_Some s "Region" _ _ d') by done. run_steps.
      intros [= <-]. exists i, d, regions, j. rewrite Hregion. by split_and!.
    + assert (regions = []) as ->.
      { destruct regions; [done|]. by destruct (py_in "Autres villes" _). }
      rewrite selectbox_nil. run_steps.
      intros [= <-]. exists i, d, [], j. by split_and!.
  - assert (cities = []) as ->.
    { destruct cities; [done|]. by destruct (py_in "Tunis" _). }
    rewrite selectbox_nil. run_steps. done.
Qed.

(** The values of a rendered form are within the bounds of its controls. *)
Lemma render_form_within cities city_to_regions s f :
  result (render_form cities city_to_regions s) = Done f → within_controls f.
Proof.
  intros (i & d & regions & j & _ & _ & _ & _ & _ & _ & _ & _ & Hr & Hb & Hs & _)
    %render_form_Done.
  unfold within_controls. rewrite Hr, Hb, Hs.
  split_and!; by apply bounded_within.
Qed.

(** ** The processing of a submission *)

Lemma eq_str_spec v s : eq_str v s = true ↔ v = PyStr s.
Proof.
  destruct v as [|s'|x]; simpl; [done| |done].
  rewrite bool_decide_eq_true. naive_solver.
Qed.

Section Submission.

Variable format_price : float → string.

Local Open Scope float_scope.

Lemma predict_and_show_ok m f p rest :
  predict m (input_data f) = inr (p :: rest) →
  predict_and_show format_price m f =
    MkRun (call_predict (input_data f) :: shown format_price f p) (Done tt).
Proof.
  intros H. unfold predict_and_show, try_except, shown. rewrite H. run_steps.
  by destruct (eq_str (type_property f) "À Louer"),
    (eq_str (type_property f) "À Vendre"), (10000 <? p), (p <? 10000).
Qed.

Lemma predict_and_show_caught m f e :
  failure m f = Some e → is_Exception e = true →
  predict_and_show format_price m f =
    MkRun [call_predict (input_data f);
           st_error ("Error making prediction: " +:+ exn_str e)] (Done tt).
Proof.
  unfold failure, predict_and_show, try_except. intros H He.
  destruct (predict m (input_data f)) as [e'|[|p rest]]; simplify_eq/=;
    by rewrite ?He.
Qed.

Lemma predict_and_show_uncaught m f e :
  failure m f = Some e → is_Exception e = false →
  predict_and_show format_price m f =
    MkRun [call_predict (input_data f)] (Raised e).
Proof.
  unfold failure, predict_and_show, try_except. intros H He.
  destruct (predict m (input_data f)) as [e'|[|p rest]]; simplify_eq/=;
    by rewrite ?He.
Qed.

Lemma predict_and_show_cases m f :
  (∃ p rest, predict m (input_data f) = inr (p :: rest) ∧
     predict_and_show format_price m f =
       MkRun (call_predict (input_data f) :: shown format_price f p) (Done tt)) ∨
  (∃ e, predict_and_show format_price m f =
       MkRun [call_predict (input_data f);
              st_error ("Error making prediction: " +:+ exn_str e)] (Done tt)) ∨
  (∃ e, predict_and_show format_price m f =
       MkRun [call_predict (input_data f)] (Raised e)).
Proof.
  destruct (failure m f) as [e|] eqn:Hf.
  - right. destruct (is_Exception e) eqn:He.
    + left. eauto using predict_and_show_caught.
    + right. eauto using predict_and_show_uncaught.
  - left. unfold failure in Hf.
    destruct (predict m (input_data f)) as [e'|[|p rest]] eqn:Hp; simplify_eq/=.
    eauto using predict_and_show_ok.
Qed.

Lemma shown_no_prediction f p : Forall (λ ev, is_prediction ev = false) (shown format_price f p).
Proof.
  unfold shown. repeat case_match; by repeat constructor.
Qed.

(** The model is called once, first, on the frame of the form. *)
Lemma predict_and_show_trace m f :
  ∃ t, trace (predict_and_show format_price m f) = call_predict (input_data f) :: t ∧
       Forall (λ ev, is_prediction ev = false) t.
Proof.
  destruct (predict_and_show_cases m f)
    as [(p & rest & _ & ->)|[[e ->]|[e ->]]]; simpl; eexists; split; try done.
  - apply shown_no_prediction.
  - by repeat constructor.
Qed.

Lemma process_valid m f :
  passes_validation f = true →
  process format_price m f = predict_and_show format_price m f.
Proof.
  unfold passes_validation, process. intros H.
  destruct (size f <=? 0); [done|].
  by destruct (room_count f <? 0), (bathroom_count f <? 0).
Qed.

Lemma process_invalid m f :
  passes_validation f = false →
  ∃ msg, process format_price m f = MkRun [st_error msg] (Done tt).
Proof.
  unfold passes_validation, process. intros H.
  destruct (size f <=? 0); [by eexists|].
  destruct (room_count f <? 0), (bathroom_count f <? 0);
    try discriminate H; by eexists.
Qed.

Lemma within_controls_valid f : within_controls f → passes_validation f = true.
Proof.
  intros ((Hs & _) & (Hr & _) & (Hb & _)). unfold passes_validation.
  by rewrite (at_least_20_not_le_0 _ Hs), (nonneg_not_lt_0 _ Hr), (nonneg_not_lt_0 _ Hb).
Qed.

(** C1: for a submission with a positive size and counts that are not
    negative, the frame handed to the model has the columns category,
    room_count, bathroom_count, size, type, city, region, in this order
    (the columns for the number of rooms and of bathrooms are labelled
    room_count and bathroom_count), one row, and the entries are the values
    of the form; the model is called on this frame and on no other. *)
Theorem feature_row m f :
  (0 <? size f) = true → (0 <=? room_count f) = true → (0 <=? bathroom_count f) = true →
  columns (input_data f) =
    ["category"; "room_count"; "bathroom_count"; "size"; "type"; "city"; "region"]%string ∧
  map snd (input_data f) =
    [ [category f]; [PyFloat (room_count f)]; [PyFloat (bathroom_count f)];
      [PyFloat (size f)]; [type_property f]; [city f]; [region f] ] ∧
  ∃ t, trace (process format_price m f) = call_predict (input_data f) :: t ∧
       Forall (λ ev, is_prediction ev = false) t.
Proof.
  intros Hs Hr Hb. split; [done|]. split; [done|].
  rewrite process_valid; [apply predict_and_show_trace|].
  unfold passes_validation.
  by rewrite (positive_not_le_0 _ Hs), (nonneg_not_lt_0 _ Hr), (nonneg_not_lt_0 _ Hb).
Qed.

(** C2: a size that is not positive is reported by the size message and a
    negative count (with a positive size) by the counts message, in both cases
    without any call to the model; and the model is called only when neither
    check fails, which for numbers means a positive size and counts that
    are not negative. *)
Theorem validation_blocks m f :
  ((size f <=? 0) = true →
     process format_price m f = MkRun [st_error size_msg] (Done tt)) ∧
  ((0 <? size f) = true → (room_count f <? 0) = true ∨ (bathroom_count f <? 0) = true →
     process format_price m f = MkRun [st_error counts_msg] (Done tt)) ∧
  (∀ d, call_predict d ∈ trace (process format_price m f) →
     ((size f <=? 0) = false ∧ (room_count f <? 0) = false ∧ (bathroom_count f <? 0) = false) ∧
     (is_number (size f) = true → (0 <? size f) = true) ∧
     (is_number (room_count f) = true → (0 <=? room_count f) = true) ∧
     (is_number (bathroom_count f) = true → (0 <=? bathroom_count f) = true)) ∧
  mentions size_msg "Size must be greater than 0" = true ∧
  mentions counts_msg "Room count and bathroom count cannot be negative" = true.
Proof.
  split_and!; [| | |done|done].
  - intros H. unfold process. by rewrite H.
  - intros Hs%positive_not_le_0 Hc. unfold process. rewrite Hs.
    by destruct Hc as [-> | ->]; [|rewrite orb_true_r].
  - intros d Hd.
    destruct (passes_validation f) eqn:Hv.
    + unfold passes_validation in Hv.
      apply andb_true_iff in Hv as [Hs%negb_true_iff Hc%negb_true_iff].
      apply orb_false_iff in Hc as [Hr Hb].
      split_and!; auto using not_le_0_positive, not_lt_0_nonneg.
    + destruct (process_invalid m f Hv) as [msg Hmsg]. rewrite Hmsg in Hd.
      apply list_elem_of_singleton in Hd. discriminate Hd.
Qed.

(** C3: after a successful prediction the price is shown, and a warning is
    shown exactly when the type is for rent and the price is above 10000
    (the high rent warning) or the type is for sale and the price is below
    10000 (the low sale warning); the execution goes on normally. *)
Theorem anomaly_warning m f p rest :
  passes_validation f = true → predict m (input_data f) = inr (p :: rest) →
  let r := process format_price m f in
  result r = Done tt ∧
  st_success ("**Predicted Price**: " +:+ format_price p +:+ " TND") ∈ trace r ∧
  (st_warning high_rent_msg ∈ trace r ↔
     type_property f = PyStr "À Louer" ∧ (10000 <? p) = true) ∧
  (st_warning low_sale_msg ∈ trace r ↔
     type_property f = PyStr "À Vendre" ∧ (p <? 10000) = true) ∧
  (∀ body, st_warning body ∈ trace r → body = high_rent_msg ∨ body = low_sale_msg) ∧
  mentions high_rent_msg "predicted rental price seems unusually high" = true ∧
  mentions low_sale_msg "predicted sale price seems unusually low" = true.
Proof.
  intros Hv Hp r. subst r.
  rewrite (process_valid _ _ Hv), (predict_and_show_ok _ _ _ _ Hp).
  unfold shown. cbn [result trace].
  rewrite <-!eq_str_spec.
  assert (eq_str (type_property f) "À Louer" = true →
          eq_str (type_property f) "À Vendre" = true → False) as Hexcl.
  { rewrite !eq_str_spec. congruence. }
  destruct (eq_str (type_property f) "À Louer"),
    (eq_str (type_property f) "À Vendre"), (10000 <? p), (p <? 10000);
    try (exfalso; by apply Hexcl); cbn [andb app].
  all: split_and!; try done; try intros body;
    rewrite ?elem_of_cons, ?elem_of_nil; naive_solver.
Qed.

(** C4: after a successful prediction exactly one label is shown, the one of
    a monthly rental price when the type is for rent and the one of a purchase
    price when the type is for sale; there is no third label. *)
Theorem context_label m f p rest :
  passes_validation f = true → predict m (input_data f) = inr (p :: rest) →
  let r := process format_price m f in
  (type_property f = PyStr "À Louer" → st_markdown rental_label ∈ trace r) ∧
  (type_property f = PyStr "À Vendre" → st_markdown purchase_label ∈ trace r) ∧
  (∃ label, (label = rental_label ∨ label = purchase_label) ∧
     ∀ body, st_markdown body ∈ trace r ↔ body = label) ∧
  mentions rental_label "estimated monthly rental price" = true ∧
  mentions purchase_label "estimated purchase price" = true.
Proof.
  intros Hv Hp r. subst r.
  rewrite (process_valid _ _ Hv), (predict_and_show_ok _ _ _ _ Hp).
  unfold shown. cbn [result trace].
  assert (∀ label w, Forall (λ ev, ∀ body, ev ≠ st_markdown body) w →
            ∀ body, st_markdown body ∈
              call_predict (input_data f)
              :: ([st_success ("**Predicted Price**: " +:+ format_price p +:+ " TND");
                   st_markdown label] ++ w) ↔ body = label) as Hone.
  { intros label w Hw body. rewrite Forall_forall in Hw.
    cbn [app]. rewrite !elem_of_cons. split; [|naive_solver].
    intros [?|[?|[?|Hin]]]; simplify_eq; [done|]. by destruct (Hw _ Hin body). }
  assert (Forall (λ ev, ∀ body, ev ≠ st_markdown body)
            (if eq_str (type_property f) "À Louer" && (10000 <? p)
             then [st_warning high_rent_msg]
             else if eq_str (type_property f) "À Vendre" && (p <? 10000)
             then [st_warning low_sale_msg] else [])) as Hw.
  { repeat case_match; by repeat constructor. }
  split_and!; try done.
  - intros Ht%eq_str_spec. apply (Hone _ _ Hw). by rewrite Ht.
  - intros Ht. apply (Hone _ _ Hw). by rewrite Ht.
  - eexists. split; [|apply (Hone _ _ Hw)].
    destruct (eq_str (type_property f) "À Louer"); auto.
Qed.

(** C10: the values of a rendered form are within the bounds of its controls
    (size between 20 and 1000, rooms between 0 and 10, bathrooms between 0 and
    5), and for values within these bounds neither validation message can be
    shown: the submission goes to the model. *)
Theorem controls_pass_validation m f :
  within_controls f →
  (size f <=? 0) = false ∧
  ((room_count f <? 0) || (bathroom_count f <? 0)) = false ∧
  (st_error size_msg ∉ trace (process format_price m f)) ∧
  (st_error counts_msg ∉ trace (process format_price m f)) ∧
  (∃ t, trace (process format_price m f) = call_predict (input_data f) :: t) ∧
  ∀ cities city_to_regions s f',
    result (render_form cities city_to_regions s) = Done f' → within_controls f'.
Proof.
  intros Hin. pose proof (within_controls_valid _ Hin) as Hv.
  rewrite (process_valid _ _ Hv).
  unfold passes_validation in Hv.
  apply andb_true_iff in Hv as [Hs%negb_true_iff Hc%negb_true_iff].
  split_and!; try done.
  - destruct (predict_and_show_cases m f)
      as [(p & rest & _ & ->)|[[e ->]|[e ->]]]; cbn [trace]; unfold shown;
      rewrite ?elem_of_cons, ?elem_of_app, ?elem_of_nil;
      repeat case_match; rewrite ?elem_of_cons, ?elem_of_nil; naive_solver.
  - destruct (predict_and_show_cases m f)
      as [(p & rest & _ & ->)|[[e ->]|[e ->]]]; cbn [trace]; unfold shown;
      rewrite ?elem_of_cons, ?elem_of_app, ?elem_of_nil;
      repeat case_match; rewrite ?elem_of_cons, ?elem_of_nil; naive_solver.
  - destruct (predict_and_show_trace m f) as (t & Ht & _). eauto.
  - intros cities city_to_regions s f'. apply render_form_within.
Qed.

End Submission.

(** ** Whole executions *)

Lemma dict_comprehension_lookup f keys acc d k v :
  dict_comprehension f keys acc = inr d → d !! k = Some v →
  f k = inr v ∨ acc !! k = Some v.
Proof.
  revert acc. induction keys as [|k0 keys IH]; intros acc; simpl.
  - intros [= ->]. auto.
  - destruct (f k0) as [e|v0] eqn:Hk0; [done|].
    intros Hd Hk. destruct (IH _ Hd Hk) as [?|Hacc]; [by left|].
    destruct (decide (k0 = k)) as [->|Hne].
    + rewrite lookup_insert_eq in Hacc. left. congruence.
    + rewrite lookup_insert_ne in Hacc by done. by right.
Qed.

Lemma cities_of_Sorted df cities : cities_of df = inr cities → Sorted String.le cities.
Proof.
  unfold cities_of. destruct (getitem df "city"); [done|].
  intros [= <-]. apply Sorted_sorted.
Qed.

Lemma regions_of_Sorted df c regions :
  regions_of df c = inr regions → Sorted String.le regions.
Proof.
  unfold regions_of. destruct (getitem df "city"); [done|].
  destruct (getitem _ "region"); [done|].
  intros [= <-]. apply Sorted_sorted.
Qed.

Lemma city_to_regions_of_Sorted df cities city_to_regions c regions :
  city_to_regions_of df cities = inr city_to_regions →
  city_to_regions !! c = Some regions → Sorted String.le regions.
Proof.
  intros Hd Hc.
  destruct (dict_comprehension_lookup _ _ _ _ _ _ Hd Hc) as [Hr|Hr].
  - by apply regions_of_Sorted in Hr.
  - by rewrite lookup_empty in Hr.
Qed.

Lemma head_first_alphabetically l x :
  Sorted String.le l → head l = Some x → first_alphabetically x l.
Proof.
  destruct l as [|y l]; [done|]. intros Hs [= ->].
  split; [left | by apply Sorted_head_le].
Qed.

Section Executions.

Variable format_price : float → string.

(** An execution that gets through start-up and the form, with a submission
    whose processing ends normally. *)
Lemma script_submitted w s m df cities city_to_regions f :
  joblib_load w model_path = inr m → read_csv w dataset_path = inr df →
  cities_of df = inr cities → city_to_regions_of df cities = inr city_to_regions →
  result (render_form cities city_to_regions s) = Done f →
  submitted f = true → result (process format_price m f) = Done tt →
  script format_price w s =
    MkRun (trace header ++ [call_joblib_load model_path; call_read_csv dataset_path] ++
           trace (render_form cities city_to_regions s) ++
           trace (process format_price m f) ++ trace closing) (Done tt).
Proof.
  intros Hm Hdf Hc Hd Hf Hs Hp. unfold script.
  rewrite header_trace, (load_model_ok _ _ Hm). run_steps.
  rewrite (load_data_ok _ _ Hdf). run_steps.
  rewrite Hc. run_steps. rewrite Hd. run_steps.
  rewrite (bind_Done _ _ _ Hf), Hs, (bind_Done _ _ _ Hp).
  reflexivity.
Qed.

(** C6: when the call to the model raises an exception, the execution shows
    an error message that ends with the text of the exception, right after the
    call, shows no price, and goes on to its normal end: the instructions and
    the footer are rendered as for any other execution. *)
Theorem prediction_failure_reported w s m df cities city_to_regions f e :
  joblib_load w model_path = inr m → read_csv w dataset_path = inr df →
  cities_of df = inr cities → city_to_regions_of df cities = inr city_to_regions →
  result (render_form cities city_to_regions s) = Done f → submitted f = true →
  predict m (input_data f) = inl e → is_Exception e = true →
  let r := script format_price w s in
  result r = Done tt ∧
  trace r =
    trace header ++ [call_joblib_load model_path; call_read_csv dataset_path] ++
    trace (render_form cities city_to_regions s) ++
    [call_predict (input_data f);
     st_error ("Error making prediction: " +:+ exn_str e)] ++
    trace closing ∧
  st_error ("Error making prediction: " +:+ exn_str e) ∈ trace r ∧
  ∀ body, st_success body ∉ trace r.
Proof.
  intros Hm Hdf Hc Hd Hf Hs Hp He r. subst r.
  assert (process format_price m f =
            MkRun [call_predict (input_data f);
                   st_error ("Error making prediction: " +:+ exn_str e)] (Done tt)) as Hrun.
  { rewrite process_valid by eauto using within_controls_valid, render_form_within.
    apply predict_and_show_caught; [|done]. unfold failure. by rewrite Hp. }
  rewrite (script_submitted _ _ _ _ _ _ _ Hm Hdf Hc Hd Hf Hs) by (by rewrite Hrun).
  rewrite Hrun. cbn [trace result].
  destruct (render_form_Done _ _ _ _ Hf) as (i & d & regions & j & Hform).
  destruct Hform as (_ & _ & _ & _ & _ & _ & _ & _ & _ & _ & _ & _ & ->).
  split_and!; [done | done | |].
  - rewrite !elem_of_app, !elem_of_cons. naive_solver.
  - intros body. cbn. rewrite !elem_of_cons, elem_of_nil. naive_solver.
Qed.

End Executions.

(** C9: the City select box is rendered with the sorted cities and an index
    that designates "Tunis" when it is a city and the first city otherwise;
    the Region select box is rendered with the regions that the lookup has
    for the city that the City select box returned, which are sorted, and an
    index that designates "Autres villes" when it is one of them and the first
    region otherwise; a select box that the user did not touch returns the
    option at its index. *)
Theorem selector_defaults df cities city_to_regions s f :
  cities_of df = inr cities → city_to_regions_of df cities = inr city_to_regions →
  result (render_form cities city_to_regions s) = Done f →
  ∃ i j c regions,
    st_selectbox "City" cities i ∈ trace (render_form cities city_to_regions s) ∧
    st_selectbox "Region" regions j ∈ trace (render_form cities city_to_regions s) ∧
    (∀ label options index,
       st_selectbox label options index ∈ trace (render_form cities city_to_regions s) →
       (label = "City" → options = cities ∧ index = i) ∧
       (label = "Region" → options = regions ∧ index = j)) ∧
    cities !! i = (if py_in "Tunis" cities then Some "Tunis" else head cities) ∧
    (∀ x, head cities = Some x → first_alphabetically x cities) ∧
    city f = PyStr c ∧ c ∈ cities ∧
    (entered s "City" = None → cities !! i = Some c) ∧
    city_to_regions !! c = Some regions ∧
    regions !! j = (if py_in "Autres villes" regions then Some "Autres villes" else head regions) ∧
    (∀ x, head regions = Some x → first_alphabetically x regions) ∧
    (∀ d, regions !! j = Some d →
       ∃ r, region f = PyStr r ∧ r ∈ regions ∧ (entered s "Region" = None → r = d)).
Proof.
  intros Hc Hd Hf.
  destruct (render_form_Done _ _ _ _ Hf)
    as (i & d & regions & j & Hi & Hcity & Hcf & Hregions & Hj & Hrf & _ & _ & _ & _ & _ & _ & ->).
  destruct (default_index_spec cities "Tunis") as (i' & Hi' & Hdi).
  destruct (default_index_spec regions "Autres villes") as (j' & Hj' & Hdj).
  simplify_eq.
  exists i, j, (chosen s "City" cities d), regions.
  split_and!; try done.
  - rewrite !elem_of_cons. naive_solver.
  - rewrite !elem_of_cons. naive_solver.
  - intros label options index. rewrite !elem_of_cons, elem_of_nil. naive_solver.
  - congruence.
  - intros x. apply head_first_alphabetically. by eapply cities_of_Sorted.
  - apply chosen_elem_of. by eapply list_elem_of_lookup_2.
  - intros Hu. by rewrite chosen_untouched.
  - congruence.
  - intros x. apply head_first_alphabetically.
    by eapply city_to_regions_of_Sorted.
  - intros d' Hd'. rewrite Hd' in Hrf.
    exists (chosen s "Region" regions d'). split_and!; [done| |].
    + apply chosen_elem_of. by eapply list_elem_of_lookup_2.
    + intros Hu. by rewrite chosen_untouched.
Qed.

(** * The properties on the sample data *)

Local Open Scope float_scope.

(** The scenario of a flat for sale in Tunis: size 100, 2 rooms, 1 bathroom. *)
Lemma feature_row_witness :
  input_data (sample_form "À Vendre" 100 2) =
    [ ("category", [PyStr "Appartements"]); ("room_count", [PyFloat 2]);
      ("bathroom_count", [PyFloat 1]); ("size", [PyFloat 100]);
      ("type", [PyStr "À Vendre"]); ("city", [PyStr "Tunis"]);
      ("region", [PyStr "Autres villes"]) ]%string ∧
  ∃ t, trace (process sample_format (constant_model 350000) (sample_form "À Vendre" 100 2)) =
         call_predict (input_data (sample_form "À Vendre" 100 2)) :: t ∧
       Forall (λ ev, is_prediction ev = false) t.
Proof.
  split; [reflexivity|].
  apply (feature_row sample_format (constant_model 350000) (sample_form "À Vendre" 100 2));
    reflexivity.
Defined.

(** A size of 0 and a count of -1 are refused. *)
Lemma validation_blocks_witness :
  process sample_format (constant_model 15000) (sample_form "À Louer" 0 2) =
    MkRun [st_error size_msg] (Done tt) ∧
  process sample_format (constant_model 15000) (sample_form "À Louer" 100 (-1)) =
    MkRun [st_error counts_msg] (Done tt).
Proof.
  split.
  - apply (validation_blocks sample_format (constant_model 15000) (sample_form "À Louer" 0 2)).
    reflexivity.
  - apply (validation_blocks sample_format (constant_model 15000)
             (sample_form "À Louer" 100 (-1))); [reflexivity|].
    left. reflexivity.
Defined.

(** The scenario of a rent predicted at 15000: the high rent warning. *)
Lemma anomaly_warning_witness :
  st_warning high_rent_msg ∈
    trace (process sample_format (constant_model 15000) (sample_form "À Louer" 100 2)).
Proof.
  apply (anomaly_warning sample_format (constant_model 15000) (sample_form "À Louer" 100 2)
           15000 []); [reflexivity | reflexivity |].
  split; reflexivity.
Defined.

(** The scenario of a sale predicted at 5000: the label of a purchase price. *)
Lemma context_label_witness :
  st_markdown purchase_label ∈
    trace (process sample_format (constant_model 5000) (sample_form "À Vendre" 100 2)).
Proof.
  apply (context_label sample_format (constant_model 5000) (sample_form "À Vendre" 100 2)
           5000 []); reflexivity.
Defined.

(** The lookup of the sample dataset. *)
Lemma city_to_regions_sound_witness :
  ∃ cities city_to_regions,
    cities_of sample_df = inr cities ∧
    city_to_regions_of sample_df cities = inr city_to_regions ∧
    Sorted String.le cities ∧
    ∃ regions, city_to_regions !! "Tunis" = Some regions ∧ regions ≠ [] ∧
               Sorted String.le regions ∧ NoDup regions.
Proof.
  destruct (city_to_regions_sound sample_df
              ["Tunis"; "Ariana"; "Tunis"; "Tunis"]%string
              ["La Marsa"; "Raoued"; "Autres villes"; "La Marsa"]%string)
    as (cities & city_to_regions & Hc & Hd & Hs & Hall);
    [reflexivity | reflexivity | reflexivity |].
  destruct (Hall "Tunis") as (regions & H1 & H2 & H3 & H4 & _); [left|].
  exists cities, city_to_regions. split_and!; [done..|].
  exists regions. by split_and!.
Defined.

(** The model of the sample world fails on every frame. *)
Lemma prediction_failure_reported_witness :
  result (script sample_format (sample_world failing_model) untouched_submit) = Done tt ∧
  st_error "Error making prediction: columns are missing: {'size'}" ∈
    trace (script sample_format (sample_world failing_model) untouched_submit).
Proof.
  destruct (prediction_failure_reported sample_format
              (sample_world failing_model) untouched_submit failing_model
              sample_df sample_cities sample_lookup (sample_form "À Louer" 100 2)
              (Exn ValueError "columns are missing: {'size'}"))
    as (H1 & _ & H3 & _); [reflexivity..|].
  split; [exact H1 | exact H3].
Defined.

(** A world without the model file. *)
Lemma missing_model_stops_witness :
  result (script sample_format world_without_model untouched_submit) = Stopped ∧
  Forall (λ ev, is_form_control ev = false ∧ is_prediction ev = false)
    (trace (script sample_format world_without_model untouched_submit)).
Proof.
  destruct (missing_model_stops sample_format world_without_model untouched_submit
              (Exn FileNotFoundError
                 "[Errno 2] No such file or directory: 'property_price_model.pkl'"))
    as (H1 & _ & H3); [reflexivity | reflexivity |].
  split; [exact H1 | exact H3].
Defined.

(** A world without the dataset file. *)
Lemma dataset_failure_halts_witness :
  result (script sample_format world_without_dataset untouched_submit) ≠ Done tt ∧
  Forall (λ ev, is_form_control ev = false ∧ is_prediction ev = false)
    (trace (script sample_format world_without_dataset untouched_submit)).
Proof.
  destruct (dataset_failure_halts sample_format world_without_dataset untouched_submit
              (Exn FileNotFoundError
                 "[Errno 2] No such file or directory: 'cleaned_property_prices_tunisia.csv'"))
    as (H1 & H2 & _); [reflexivity|].
  split; [exact H1 | exact H2].
Defined.

(** The page as loaded on the sample dataset: Tunis and Autres villes. *)
Lemma selector_defaults_witness :
  ∃ i j,
    st_selectbox "City" sample_cities i ∈
      trace (render_form sample_cities sample_lookup on_load) ∧
    sample_cities !! i = Some "Tunis"%string ∧
    st_selectbox "Region" ["Autres villes"; "La Marsa"]%string j ∈
      trace (render_form sample_cities sample_lookup on_load) ∧
    ["Autres villes"; "La Marsa"]%string !! j = Some "Autres villes"%string.
Proof.
  destruct (selector_defaults sample_df sample_cities sample_lookup on_load
              {| category := PyStr "Appartements"; type_property := PyStr "À Louer";
                 city := PyStr "Tunis"; region := PyStr "Autres villes";
                 room_count := 2; bathroom_count := 1; size := 100; submitted := false |})
    as (i & j & c & regions & H1 & H2 & _ & H4 & _ & H6 & _ & H8 & H9 & H10 & _);
    [reflexivity | reflexivity | reflexivity |].
  assert (c = "Tunis"%string) as ->.
  { specialize (H8 eq_refl). rewrite H4 in H8. vm_compute in H8. congruence. }
  assert (regions = ["Autres villes"; "La Marsa"]%string) as ->.
  { vm_compute in H9. congruence. }
  exists i, j. split_and!; [exact H1 | by rewrite H4 | exact H2 | by rewrite H10].
Defined.

(** The values of the form left untouched are within the bounds. *)
Lemma controls_pass_validation_witness :
  within_controls (sample_form "À Louer" 100 2) ∧
  ∃ t, trace (process sample_format (constant_model 15000) (sample_form "À Louer" 100 2)) =
         call_predict (input_data (sample_form "À Louer" 100 2)) :: t.
Proof.
  assert (within_controls (sample_form "À Louer" 100 2)) as Hin.
  { repeat split; reflexivity. }
  split; [exact Hin|].
  apply (controls_pass_validation sample_format (constant_model 15000)
           (sample_form "À Louer" 100 2) Hin).
Defined.

(** * Further properties of the script *)

Local Close Scope float_scope.

(** ** Sequencing *)

(** The three ways for a sequence to go on. *)
Lemma bind_cases {A B} (m : Run A) (k : A → Run B) :
  (∃ a, result m = Done a ∧ m ≫= k = MkRun (trace m ++ trace (k a)) (result (k a))) ∨
  (∃ e, result m = Raised e ∧ m ≫= k = MkRun (trace m) (Raised e)) ∨
  (result m = Stopped ∧ m ≫= k = MkRun (trace m) Stopped).
Proof.
  unfold mbind, Run_bind. destruct (result m) as [a|e|]; eauto 6.
Qed.

Lemma Forall_trace_bind {A B} (P : event → Prop) (m : Run A) (k : A → Run B) :
  Forall P (trace m) → (∀ a, result m = Done a → Forall P (trace (k a))) →
  Forall P (trace (m ≫= k)).
Proof.
  intros Hm Hk.
  destruct (bind_cases m k) as [(a & Ha & ->)|[(e & _ & ->)|[_ ->]]]; simpl; [|done..].
  apply Forall_app. auto.
Qed.

Lemma lift_trace {A} (r : exn + A) : trace (lift r) = [].
Proof. by destruct r. Qed.

Lemma lift_not_Stopped {A} (r : exn + A) : result (lift r) ≠ Stopped.
Proof. by destruct r. Qed.

Lemma selectbox_trace s label options index :
  trace (selectbox s label options index) = [st_selectbox label options index].
Proof.
  unfold selectbox. destruct (options !! index); [done|]. by destruct options.
Qed.

(** ** The form, in all cases *)

(** The form renders nothing but its own layout and controls. *)
Lemma render_form_events cities city_to_regions s :
  Forall (λ ev, form_event ev = true) (trace (render_form cities city_to_regions s)).
Proof.
  unfold render_form.
  repeat (apply Forall_trace_bind; [|intros ? _]);
    run_steps; rewrite ?lift_trace; repeat case_match; by repeat constructor.
Qed.

(** The form is rendered to its end, or it fails on the lookup of the regions:
    of [None] when there is no city, of a city without an entry otherwise. *)
Lemma render_form_cases cities city_to_regions s :
  (∃ f, result (render_form cities city_to_regions s) = Done f) ∨
  (cities = [] ∧
   render_form cities city_to_regions s =
     MkRun [ st_form "property_form"; st_subheader "📝 Property Details"; st_columns 2;
             st_selectbox "Category" categories 0; st_selectbox "Type" types 0;
             st_selectbox "City" [] 0 ]
           (Raised (Exn KeyError "None"))) ∨
  (∃ c, c ∈ cities ∧ city_to_regions !! c = None ∧
        result (render_form cities city_to_regions s) =
          Raised (Exn KeyError ("'" +:+ c +:+ "'"))).
Proof.
  unfold render_form.
  destruct (default_index_spec cities "Tunis") as (i & Hi & Hd).
  rewrite Hi.
  rewrite (selectbox_Some s "Category" _ 0 "Appartements") by done.
  rewrite (selectbox_Some s "Type" _ 0 "À Louer") by done.
  run_steps.
  destruct (cities !! i) as [d|] eqn:Hcity.
  - rewrite (selectbox_Some s "City" _ _ d) by done. run_steps.
    destruct (city_to_regions !! chosen s "City" cities d) as [regions|] eqn:Hregions;
      run_steps.
    + left.
      destruct (default_index_spec regions "Autres villes") as (j & Hj & Hd').
      rewrite Hj. run_steps.
      destruct (regions !! j) as [d'|] eqn:Hregion.
      * rewrite (selectbox_Some s "Region" _ _ d') by done. run_steps. eauto.
      * assert (regions = []) as ->.
        { destruct regions; [done|]. by destruct (py_in "Autres villes" _). }
        rewrite selectbox_nil. run_steps. eauto.
    + right; right. exists (chosen s "City" cities d). split_and!; [|done..].
      apply chosen_elem_of. by eapply list_elem_of_lookup_2.
  - assert (cities = []) as ->.
    { destruct cities; [done|]. by destruct (py_in "Tunis" _). }
    right; left. split; [done|].
    assert (i = 0) as -> by (vm_compute in Hi; congruence).
    rewrite selectbox_nil. reflexivity.
Qed.

(** ** Executions, in all cases *)

Section AllExecutions.

Variable format_price : float → string.

(** The four ways for the processing of a submission to go: a validation
    message, a reported failure of the prediction, a price, an exception that
    is not handled. *)
Lemma process_outcomes m f :
  (passes_validation f = false ∧
   ∃ msg, process format_price m f = MkRun [st_error msg] (Done tt)) ∨
  (passes_validation f = true ∧
   ∃ e, failure m f = Some e ∧ is_Exception e = true ∧
        process format_price m f =
          MkRun [call_predict (input_data f);
                 st_error ("Error making prediction: " +:+ exn_str e)] (Done tt)) ∨
  (passes_validation f = true ∧
   ∃ p rest, predict m (input_data f) = inr (p :: rest) ∧
             process format_price m f =
               MkRun (call_predict (input_data f) :: shown format_price f p) (Done tt)) ∨
  (passes_validation f = true ∧
   ∃ e, failure m f = Some e ∧ is_Exception e = false ∧
        process format_price m f = MkRun [call_predict (input_data f)] (Raised e)).
Proof.
  destruct (passes_validation f) eqn:Hv.
  - right. rewrite (process_valid _ _ _ Hv).
    destruct (failure m f) as [e|] eqn:Hf.
    + destruct (is_Exception e) eqn:He.
      * left. eauto 6 using predict_and_show_caught.
      * right; right. eauto 6 using predict_and_show_uncaught.
    + right; left. unfold failure in Hf.
      destruct (predict m (input_data f)) as [e'|[|p rest]] eqn:Hp; simplify_eq/=.
      eauto 6 using predict_and_show_ok.
  - left. eauto using process_invalid.
Qed.

(** What is displayed after a prediction: one price, no error, no call. *)
Lemma shown_counts f p :
  count is_success (shown format_price f p) = 1 ∧
  count is_error (shown format_price f p) = 0 ∧
  count is_prediction (shown format_price f p) = 0 ∧
  st_markdown_static footer ∉ shown format_price f p.
Proof.
  unfold shown, count.
  destruct (eq_str (type_property f) "À Louer"), (eq_str (type_property f) "À Vendre"),
    (PrimFloat.ltb 10000 p), (PrimFloat.ltb p 10000); simpl;
    (split_and!; [done..|]); rewrite ?elem_of_cons, elem_of_nil; naive_solver.
Qed.

(** Start-up either yields the model, the dataset and the lookup, or ends the
    execution after the header and at most two more calls. *)
Lemma startup_cases w :
  (∃ m df cities city_to_regions,
     joblib_load w model_path = inr m ∧ read_csv w dataset_path = inr df ∧
     cities_of df = inr cities ∧ city_to_regions_of df cities = inr city_to_regions) ∨
  (∀ s, ∃ t o,
     script format_price w s = MkRun (trace header ++ call_joblib_load model_path :: t) o ∧
     (∀ u, o ≠ Done u) ∧
     (t = [] ∨ t = [st_error model_missing_msg] ∨ t = [call_read_csv dataset_path])).
Proof.
  destruct (joblib_load w model_path) as [e|m] eqn:Hload.
  - right. intros s. unfold script. rewrite header_trace.
    destruct (is_FileNotFoundError e) eqn:He.
    + rewrite (load_model_missing _ _ Hload He).
      exists [st_error model_missing_msg], Stopped. split_and!; [done | done | auto].
    + assert (load_model w = MkRun [call_joblib_load model_path] (Raised e)) as ->.
      { unfold load_model, try_except. rewrite Hload. simpl. by rewrite He. }
      exists [], (Raised e). split_and!; [done | done | auto].
  - destruct (read_csv w dataset_path) as [e|df] eqn:Hread; [|
      destruct (cities_of df) as [e|cities] eqn:Hc; [|
        destruct (city_to_regions_of df cities) as [e|city_to_regions] eqn:Hd]];
      [right; intros s; exists [call_read_csv dataset_path], (Raised e)..|left; eauto 10].
    all: split_and!; [|done|auto].
    all: unfold script, load_data;
      rewrite header_trace, (load_model_ok _ _ Hload); run_steps; rewrite Hread; run_steps.
    + done.
    + by rewrite Hc.
    + rewrite Hc. run_steps. by rewrite Hd.
Qed.

Lemma process_not_Stopped m f : result (process format_price m f) ≠ Stopped.
Proof.
  destruct (process_outcomes m f)
    as [(_ & ? & ->)|[(_ & ? & _ & _ & ->)|[(_ & ? & ? & _ & ->)|(_ & ? & _ & _ & ->)]]];
    done.
Qed.

(** After start-up the execution renders the form and then fails with it,
    or skips the processing, or processes the submission; the closing part
    follows unless an exception ended the execution. *)
Lemma script_cases w s :
  (∃ t o,
     script format_price w s = MkRun (trace header ++ call_joblib_load model_path :: t) o ∧
     (∀ u, o ≠ Done u) ∧
     (t = [] ∨ t = [st_error model_missing_msg] ∨ t = [call_read_csv dataset_path])) ∨
  (∃ m df cities city_to_regions,
     joblib_load w model_path = inr m ∧ read_csv w dataset_path = inr df ∧
     cities_of df = inr cities ∧ city_to_regions_of df cities = inr city_to_regions ∧
     let form := render_form cities city_to_regions s in
     let before := trace header ++
                   call_joblib_load model_path :: call_read_csv dataset_path :: trace form in
     (∃ e, result form = Raised e ∧
           script format_price w s = MkRun before (Raised e)) ∨
     (∃ f, result form = Done f ∧ pressed s = false ∧
           script format_price w s = MkRun (before ++ trace closing) (Done tt)) ∨
     (∃ f, result form = Done f ∧ pressed s = true ∧
           result (process format_price m f) = Done tt ∧
           script format_price w s =
             MkRun (before ++ trace (process format_price m f) ++ trace closing) (Done tt)) ∨
     (∃ f e, result form = Done f ∧ pressed s = true ∧
             result (process format_price m f) = Raised e ∧
             script format_price w s =
               MkRun (before ++ trace (process format_price m f)) (Raised e))).
Proof.
  destruct (startup_cases w) as [(m & df & cities & city_to_regions & Hm & Hdf & Hc & Hd)|H];
    [right | by left].
  exists m, df, cities, city_to_regions. split_and!; [done..|].
  intros form before. subst before.
  assert (script format_price w s =
            MkRun (trace header ++ call_joblib_load model_path ::
                     call_read_csv dataset_path ::
                     trace (form ≫= λ f,
                              (if submitted f then process format_price m f else mret tt);;
                              closing))
                  (result (form ≫= λ f,
                              (if submitted f then process format_price m f else mret tt);;
                              closing))) as ->.
  { unfold script.
    rewrite header_trace, (load_model_ok _ _ Hm). run_steps.
    rewrite (load_data_ok _ _ Hdf). run_steps.
    rewrite Hc. run_steps. by rewrite Hd. }
  destruct (bind_cases form (λ f, (if submitted f then process format_price m f else mret tt);;
                                  closing))
    as [(f & Hf & ->)|[(e & He & ->)|[Hstop _]]].
  - assert (submitted f = pressed s) as ->.
    { by destruct (render_form_Done _ _ _ _ Hf)
        as (? & ? & ? & ? & _ & _ & _ & _ & _ & _ & _ & _ & _ & _ & _ & ? & _). }
    destruct (pressed s) eqn:Hp.
    + destruct (bind_cases (process format_price m f) (λ _, closing))
        as [([] & Hdone & ->)|[(e & He & ->)|[Hstop _]]].
      * right; right; left. exists f. split_and!; [done..|]. cbn [trace result].
        by rewrite <-!app_assoc.
      * right; right; right. exists f, e. split_and!; [done..|]. cbn [trace result].
        by rewrite <-!app_assoc.
      * by destruct (process_not_Stopped m f).
    + right; left. exists f. split_and!; [done..|]. cbn [trace result].
      by rewrite <-!app_assoc.
  - left. exists e. split; [done|]. reflexivity.
  - destruct (render_form_cases cities city_to_regions s)
      as [[f Hf]|[[_ Hf]|(c & _ & _ & Hf)]]; subst form; rewrite Hf in Hstop; done.
Qed.

(** *** Counting events *)

Lemma count_app P t1 t2 : count P (t1 ++ t2) = count P t1 + count P t2.
Proof. unfold count. by rewrite filter_app, length_app. Qed.

Lemma count_cons P ev t :
  count P (ev :: t) = (if P ev then 1 else 0) + count P t.
Proof.
  unfold count. rewrite filter_cons.
  destruct (P ev); by case_decide.
Qed.

Lemma count_elem_of P ev t : ev ∈ t → P ev = true → 1 ≤ count P t.
Proof.
  intros Hin HP. apply list_elem_of_split in Hin as (t1 & t2 & ->).
  rewrite count_app, count_cons, HP. lia.
Qed.

Lemma count_form_events P t :
  (∀ ev, form_event ev = true → P ev = false) →
  Forall (λ ev, form_event ev = true) t → count P t = 0.
Proof.
  intros HP. induction 1 as [|ev t Hev _ IH]; [done|].
  by rewrite count_cons, (HP _ Hev), IH.
Qed.

Lemma count_form P cities city_to_regions s :
  (∀ ev, form_event ev = true → P ev = false) →
  count P (trace (render_form cities city_to_regions s)) = 0.
Proof. intros HP. apply count_form_events, render_form_events. done. Qed.

Lemma form_event_not_prediction ev : form_event ev = true → is_prediction ev = false.
Proof. by destruct ev. Qed.

Lemma form_event_not_error ev : form_event ev = true → is_error ev = false.
Proof. by destruct ev. Qed.

Lemma form_event_not_success ev : form_event ev = true → is_success ev = false.
Proof. by destruct ev. Qed.

(** The processing of a submission calls the model at most once and shows
    at most one message among the errors and the prices. *)
Lemma process_counts m f :
  count is_prediction (trace (process format_price m f)) ≤ 1 ∧
  count is_error (trace (process format_price m f)) +
    count is_success (trace (process format_price m f)) ≤ 1.
Proof.
  destruct (process_outcomes m f)
    as [(_ & ? & ->)|[(_ & ? & _ & _ & ->)|[(_ & p & ? & _ & ->)|(_ & ? & _ & _ & ->)]]];
    cbn [trace]; rewrite ?count_cons; cbn [is_prediction is_error is_success];
    try (split; vm_compute; lia).
  destruct (shown_counts f p) as (-> & -> & -> & _). lia.
Qed.

(** X1: in every execution the model is called at most once, and it is
    called only when the submit button was pressed. *)
Theorem model_called_at_most_once w s :
  count is_prediction (trace (script format_price w s)) ≤ 1 ∧
  ∀ d, call_predict d ∈ trace (script format_price w s) → pressed s = true.
Proof.
  assert (count is_prediction (trace (script format_price w s)) ≤ 1 ∧
          (pressed s = false → count is_prediction (trace (script format_price w s)) = 0))
    as [Hle Hzero].
  { destruct (script_cases w s)
      as [(t & o & -> & _ & Ht)|(m & df & cities & city_to_regions & _ & _ & _ & _ & Hrun)].
    - cbn [trace]. rewrite count_app, count_cons.
      destruct Ht as [->|[->| ->]]; split; try intros _; vm_compute; lia.
    - cbn zeta in Hrun.
      pose proof (count_form is_prediction cities city_to_regions s
                    form_event_not_prediction) as Hform.
      pose proof (λ f, proj1 (process_counts m f)) as Hprocess.
      destruct Hrun as [(e & _ & ->)|[(f & _ & Hp & ->)|[(f & _ & Hp & _ & ->)|
                        (f & e & _ & Hp & _ & ->)]]];
        cbn [trace]; rewrite ?count_app, ?count_cons, ?Hform; cbn [is_prediction];
        specialize (Hprocess f) || clear Hprocess;
        (split; [|try congruence; intros _]);
        change (count is_prediction (trace header)) with 0;
        change (count is_prediction (trace closing)) with 0; lia. }
  split; [done|].
  intros d Hd. destruct (pressed s); [done|].
  apply (count_elem_of is_prediction) in Hd; [|done].
  rewrite Hzero in Hd by done. lia.
Qed.

(** X2: every execution shows at most one message among the error messages
    and the prices: never two errors, never two prices, never an error
    together with a price. *)
Theorem at_most_one_message w s :
  count is_error (trace (script format_price w s)) +
    count is_success (trace (script format_price w s)) ≤ 1.
Proof.
  destruct (script_cases w s)
    as [(t & o & -> & _ & Ht)|(m & df & cities & city_to_regions & _ & _ & _ & _ & Hrun)].
  - cbn [trace]. rewrite !count_app, !count_cons.
    destruct Ht as [->|[->| ->]]; vm_compute; lia.
  - cbn zeta in Hrun.
    pose proof (count_form is_error cities city_to_regions s form_event_not_error) as He.
    pose proof (count_form is_success cities city_to_regions s form_event_not_success) as Hs.
    pose proof (λ f, proj2 (process_counts m f)) as Hprocess.
    destruct Hrun as [(e & _ & ->)|[(f & _ & Hp & ->)|[(f & _ & Hp & _ & ->)|
                      (f & e & _ & Hp & _ & ->)]]];
      cbn [trace]; rewrite ?count_app, ?count_cons, ?He, ?Hs; cbn [is_error is_success];
      specialize (Hprocess f) || clear Hprocess;
      change (count is_error (trace header)) with 0;
      change (count is_success (trace header)) with 0;
      change (count is_error (trace closing)) with 0;
      change (count is_success (trace closing)) with 0; lia.
Qed.

Lemma footer_not_in_form cities city_to_regions s :
  st_markdown_static footer ∉ trace (render_form cities city_to_regions s).
Proof.
  intros Hin.
  pose proof (render_form_events cities city_to_regions s) as Hall.
  rewrite Forall_forall in Hall. by apply Hall in Hin.
Qed.

Lemma footer_not_in_process m f :
  st_markdown_static footer ∉ trace (process format_price m f).
Proof.
  destruct (process_outcomes m f)
    as [(_ & ? & ->)|[(_ & ? & _ & _ & ->)|[(_ & p & ? & _ & ->)|(_ & ? & _ & _ & ->)]]];
    cbn [trace]; rewrite ?not_elem_of_cons; try (split_and!; try done; apply not_elem_of_nil).
  split; [done|]. apply shown_counts.
Qed.

(** X3: the footer is rendered exactly by the executions that end normally:
    after [st.stop()] or an exception that nothing handles the page has no
    footer. *)
Theorem footer_iff_normal_end w s :
  st_markdown_static footer ∈ trace (script format_price w s) ↔
  result (script format_price w s) = Done tt.
Proof.
  assert (st_markdown_static footer ∉ trace header) as Hheader.
  { unfold header. run_steps. rewrite !not_elem_of_cons.
    split_and!; try done. apply not_elem_of_nil. }
  assert (st_markdown_static footer ∈ trace closing) as Hclosing.
  { unfold closing. run_steps. rewrite !elem_of_cons. auto. }
  destruct (script_cases w s)
    as [(t & o & -> & Ho & Ht)|(m & df & cities & city_to_regions & _ & _ & _ & _ & Hrun)].
  - cbn [trace result]. split.
    + rewrite elem_of_app, elem_of_cons. intros [?|[?|Hin]]; [done..|].
      destruct Ht as [->|[->| ->]]; [by apply elem_of_nil in Hin|..];
        by apply list_elem_of_singleton in Hin.
    + intros ->. by destruct (Ho tt).
  - cbn zeta in Hrun.
    pose proof (footer_not_in_form cities city_to_regions s) as Hform.
    destruct Hrun as [(e & _ & ->)|[(f & _ & Hp & ->)|[(f & _ & Hp & _ & ->)|
                      (f & e & _ & Hp & _ & ->)]]]; cbn [trace result].
    + split; [|done]. rewrite elem_of_app, !elem_of_cons. naive_solver.
    + split; [done|]. intros _. rewrite elem_of_app. auto.
    + split; [done|]. intros _. rewrite !elem_of_app. auto.
    + split; [|done]. pose proof (footer_not_in_process m f).
      rewrite !elem_of_app, !elem_of_cons. naive_solver.
Qed.

(** X4: an exception of [joblib.load] that is not a [FileNotFoundError] (a
    file that is not a pickle, say) is not handled: the execution ends with
    it right after the header, without the message of the missing model. *)
Theorem other_load_error_propagates w s e :
  joblib_load w model_path = inl e → is_FileNotFoundError e = false →
  script format_price w s =
    MkRun (trace header ++ [call_joblib_load model_path]) (Raised e).
Proof.
  intros Hload He. unfold script, load_model, try_except.
  rewrite header_trace, Hload. run_steps. by rewrite He.
Qed.

(** X5: on a dataset without rows the list of cities is empty, the City
    select box returns [None], and the lookup of its regions raises a
    [KeyError] that nothing handles: the execution ends inside the form,
    after the City select box. *)
Theorem empty_dataset_breaks_form w s m df :
  joblib_load w model_path = inr m → read_csv w dataset_path = inr df →
  getitem df "city" = inr [] →
  script format_price w s =
    MkRun (trace header ++
           [ call_joblib_load model_path; call_read_csv dataset_path;
             st_form "property_form"; st_subheader "📝 Property Details"; st_columns 2;
             st_selectbox "Category" categories 0; st_selectbox "Type" types 0;
             st_selectbox "City" [] 0 ])
          (Raised (Exn KeyError "None")).
Proof.
  intros Hm Hdf Hcity. unfold script.
  rewrite header_trace, (load_model_ok _ _ Hm). run_steps.
  rewrite (load_data_ok _ _ Hdf). run_steps.
  unfold cities_of. rewrite Hcity. run_steps.
  change (sorted (unique [])) with (@nil string).
  change (city_to_regions_of df []) with (@inr exn _ (∅ : gmap string (list string))).
  run_steps.
  destruct (render_form_cases [] ∅ s) as [[f Hf]|[[_ Hf]|(c & Hc & _)]].
  - apply render_form_Done in Hf as (i & d & ? & ? & _ & Hd & _). done.
  - by rewrite Hf.
  - by apply elem_of_nil in Hc.
Qed.

(** X6: the processing of a submission ends with an exception exactly when
    the values pass the checks and the prediction raises an exception that is
    not derived from [Exception]; nothing is shown then after the call. *)
Theorem process_raises_iff m f e :
  (result (process format_price m f) = Raised e ↔
   passes_validation f = true ∧ failure m f = Some e ∧ is_Exception e = false) ∧
  (result (process format_price m f) = Raised e →
   trace (process format_price m f) = [call_predict (input_data f)]).
Proof.
  destruct (process_outcomes m f)
    as [(Hv & ? & Hrun)|[(Hv & e' & Hf & He & Hrun)|[(Hv & p & rest & Hp & Hrun)|
        (Hv & e' & Hf & He & Hrun)]]]; rewrite Hrun; cbn [result trace].
  - split; [split|]; [done | intros (? & _); congruence | done].
  - split; [split|]; [done | intros (_ & ? & ?); congruence | done].
  - split; [split|]; [done | | done].
    intros (_ & Hf & _). unfold failure in Hf. by rewrite Hp in Hf.
  - split; [split|]; [intros [= <-]; done | | done].
    intros (_ & ? & _). congruence.
Qed.

(** X7: an empty array of predictions is reported as a failure of the
    prediction: the indexing raises inside the [try] block, so an error
    message is shown and no price. *)
Theorem empty_prediction_reported m f :
  passes_validation f = true → predict m (input_data f) = inr [] →
  ∃ msg, process format_price m f =
           MkRun [call_predict (input_data f);
                  st_error ("Error making prediction: " +:+ msg)] (Done tt).
Proof.
  intros Hv Hp. rewrite (process_valid _ _ _ Hv).
  exists (exn_str (Exn IndexError "index 0 is out of bounds for axis 0 with size 0")).
  apply predict_and_show_caught; [|done].
  unfold failure. by rewrite Hp.
Qed.

(** X8: the values of a rendered form have a category among the six of the
    Category select box and a type that is "À Louer" or "À Vendre"; so after
    a successful prediction on a rendered form the label of a purchase price,
    which the script shows for any type other than "À Louer", means the type
    "À Vendre". *)
Theorem rendered_choices cities city_to_regions s f :
  result (render_form cities city_to_regions s) = Done f →
  (∃ c, category f = PyStr c ∧ c ∈ categories) ∧
  (type_property f = PyStr "À Louer" ∨ type_property f = PyStr "À Vendre") ∧
  ∀ m p rest, predict m (input_data f) = inr (p :: rest) →
    (st_markdown purchase_label ∈ trace (process format_price m f) ↔
     type_property f = PyStr "À Vendre").
Proof.
  intros Hf.
  pose proof (within_controls_valid _ (render_form_within _ _ _ _ Hf)) as Hv.
  destruct (render_form_Done _ _ _ _ Hf)
    as (? & ? & ? & ? & _ & _ & _ & _ & _ & _ & Hcat & Htype & _).
  assert (chosen s "Type" types "À Louer" ∈ types) as Hin.
  { apply chosen_elem_of. left. }
  assert (type_property f = PyStr "À Louer" ∨ type_property f = PyStr "À Vendre") as Hcases.
  { rewrite Htype. set (t := chosen s "Type" types "À Louer") in *.
    unfold types in Hin. rewrite !elem_of_cons, elem_of_nil in Hin.
    destruct Hin as [->|[->|[]]]; auto. }
  split_and!; [|done|].
  - eexists. split; [done|]. apply chosen_elem_of. left.
  - intros m p rest Hp.
    rewrite (process_valid _ _ _ Hv), (predict_and_show_ok _ _ _ _ _ Hp).
    unfold shown. cbn [trace].
    destruct Hcases as [Ht|Ht]; rewrite Ht; cbn [eq_str];
      repeat case_match; cbn [app]; rewrite ?elem_of_cons, ?elem_of_nil; naive_solver.
Qed.

End AllExecutions.

(** ** The form and the lookup *)

(** X9: the form renders nothing but its layout and controls, and it fails
    only by the [KeyError] of the lookup of the regions, when there is no
    city or when the city has no entry: the guarded [index] calls never raise
    and no select box gets an index outside of its options. *)
Theorem form_fails_only_by_KeyError cities city_to_regions s :
  Forall (λ ev, form_event ev = true) (trace (render_form cities city_to_regions s)) ∧
  match result (render_form cities city_to_regions s) with
  | Done _ => True
  | Raised e =>
      exn_cls e = KeyError ∧ (cities = [] ∨ ∃ c, c ∈ cities ∧ city_to_regions !! c = None)
  | Stopped => False
  end.
Proof.
  split; [apply render_form_events|].
  destruct (render_form_cases cities city_to_regions s)
    as [[f ->]|[[Hnil ->]|(c & Hc & Hnone & ->)]]; [done|..]; cbn [result]; eauto.
Qed.


(** X11: on a dataset with at least one row the form is rendered to its end
    whatever the session holds, and the city and region that it returns are
    those of a record of the dataset. *)
Theorem form_renders_on_dataset df city_col region_col :
  rectangular df = true →
  getitem df "city" = inr city_col → getitem df "region" = inr region_col →
  city_col ≠ [] →
  ∃ cities city_to_regions,
    cities_of df = inr cities ∧
    city_to_regions_of df cities = inr city_to_regions ∧
    ∀ s, ∃ f c r,
      result (render_form cities city_to_regions s) = Done f ∧
      city f = PyStr c ∧ region f = PyStr r ∧
      (c, r) ∈ records city_col region_col.
Proof.
  intros Hrect Hc Hr Hne.
  destruct (lookup_spec _ _ _ Hc Hr)
    as (cities & d & Hcities & Hd & _ & _ & Hin & Hlookup).
  exists cities, d. split_and!; [done..|]. intros s.
  assert (∀ c, c ∈ cities →
            ∃ rs, d !! c = Some rs ∧ rs ≠ [] ∧
                  ∀ r, r ∈ rs → (c, r) ∈ records city_col region_col) as Hentry.
  { intros c Hmem%Hin.
    destruct (regions_of_spec df _ _ c Hc Hr) as (rs & Hrs & _ & _ & Hrec).
    exists rs. rewrite Hlookup, bool_decide_eq_true_2, Hrs by done.
    split_and!; [done| |by intros r ?%Hrec].
    intros ->.
    destruct (records_city_has_region city_col region_col c) as [r Hr']; [|done|].
    - by apply (rectangular_length df "city" "region").
    - apply Hrec in Hr'. by apply elem_of_nil in Hr'. }
  destruct (render_form_cases cities d s) as [[f Hf]|[[-> _]|(c & Hmem & Hnone & _)]].
  - destruct (render_form_Done _ _ _ _ Hf)
      as (i & c0 & regions & j & _ & Hi & Hcity & Hregions & Hj & Hregion & _).
    destruct (Hentry (chosen s "City" cities c0)) as (rs & Hrs & Hnonempty & Hrec).
    { apply chosen_elem_of. by eapply list_elem_of_lookup_2. }
    assert (rs = regions) as -> by congruence.
    destruct (default_index_spec regions "Autres villes") as (j' & Hj' & Hdefault).
    assert (j' = j) as -> by congruence.
    destruct (regions !! j) as [r0|] eqn:Hr0.
    + exists f, (chosen s "City" cities c0), (chosen s "Region" regions r0).
      split_and!; [done..|].
      apply Hrec, chosen_elem_of. by eapply list_elem_of_lookup_2.
    + destruct regions; [done|]. by destruct (py_in "Autres villes" _).
  - destruct city_col as [|c city_col]; [done|].
    assert (c ∈ []) as Hmem by (apply Hin; left). by apply elem_of_nil in Hmem.
  - destruct (Hentry c Hmem) as (rs & Hrs & _). congruence.
Qed.

Lemma dict_comprehension_ext f g keys acc :
  (∀ k, f k = g k) → dict_comprehension f keys acc = dict_comprehension g keys acc.
Proof.
  intros Hfg. revert acc. induction keys as [|k keys IH]; intros acc; simpl; [done|].
  rewrite Hfg. destruct (g k); [done | apply IH].
Qed.

(** Sorting the distinct values of two lists with the same elements gives the
    same list. *)
Lemma sorted_unique_ext l1 l2 :
  (∀ x, x ∈ l1 ↔ x ∈ l2) → sorted (unique l1) = sorted (unique l2).
Proof.
  intros Hext.
  apply (Sorted_unique String.le); [apply Sorted_sorted..|].
  apply NoDup_Permutation; [apply NoDup_sorted, NoDup_unique..|].
  intros x. by rewrite !elem_of_sorted, !elem_of_unique.
Qed.

(** X12: the list of cities and the lookup depend only on the set of (city,
    region) records of the dataset: neither the order of the rows, nor their
    repetition, nor the other columns change them. *)
Theorem lookup_depends_on_records df df' city_col region_col city_col' region_col' :
  rectangular df = true → rectangular df' = true →
  getitem df "city" = inr city_col → getitem df "region" = inr region_col →
  getitem df' "city" = inr city_col' → getitem df' "region" = inr region_col' →
  (∀ c r, (c, r) ∈ records city_col region_col ↔ (c, r) ∈ records city_col' region_col') →
  cities_of df = cities_of df' ∧
  ∀ cities, city_to_regions_of df cities = city_to_regions_of df' cities.
Proof.
  intros Hrect Hrect' Hc Hr Hc' Hr' Hsame.
  assert (∀ cc rc c, length cc = length rc →
            (c ∈ cc ↔ ∃ r, (c, r) ∈ records cc rc)) as Hcity.
  { intros cc rc c Hlen. split; [by apply records_city_has_region|].
    intros [r Hrec]. unfold records in Hrec. by apply elem_of_zip_l in Hrec. }
  pose proof (rectangular_length df "city" "region" _ _ Hrect Hc Hr) as Hlen.
  pose proof (rectangular_length df' "city" "region" _ _ Hrect' Hc' Hr') as Hlen'.
  split.
  - unfold cities_of. rewrite Hc, Hc'. f_equal. apply sorted_unique_ext.
    intros c. rewrite (Hcity _ _ c Hlen), (Hcity _ _ c Hlen').
    by setoid_rewrite Hsame.
  - intros cities. unfold city_to_regions_of. apply dict_comprehension_ext.
    intros c. unfold regions_of. rewrite Hc, Hc', !getitem_select_rows, Hr, Hr'.
    f_equal. apply sorted_unique_ext.
    intros r. by rewrite !elem_of_mask_select.
Qed.

(** ** The further properties on the sample data *)

Local Open Scope float_scope.

Lemma model_called_at_most_once_witness :
  count is_prediction
    (trace (script sample_format (sample_world (constant_model 15000)) untouched_submit)) ≤ 1.
Proof.
  apply (model_called_at_most_once sample_format
           (sample_world (constant_model 15000)) untouched_submit).
Defined.

Lemma at_most_one_message_witness :
  count is_error (trace (script sample_format (sample_world failing_model) untouched_submit)) +
  count is_success (trace (script sample_format (sample_world failing_model) untouched_submit))
  ≤ 1.
Proof.
  apply (at_most_one_message sample_format (sample_world failing_model) untouched_submit).
Defined.

(** Without the model file the page has no footer. *)
Lemma footer_iff_normal_end_witness :
  st_markdown_static footer ∉
    trace (script sample_format world_without_model untouched_submit).
Proof.
  intros Hin.
  apply (footer_iff_normal_end sample_format world_without_model untouched_submit) in Hin.
  vm_compute in Hin. discriminate Hin.
Defined.

(** A model file that is not a pickle. *)
Lemma other_load_error_propagates_witness :
  script sample_format world_with_bad_model untouched_submit =
    MkRun (trace header ++ [call_joblib_load model_path])
          (Raised (Exn Exception "invalid load key, 'x'.")).
Proof.
  apply (other_load_error_propagates sample_format world_with_bad_model untouched_submit);
    reflexivity.
Defined.

(** A dataset with its header line only. *)
Lemma empty_dataset_breaks_form_witness :
  result (script sample_format world_with_empty_dataset on_load) =
    Raised (Exn KeyError "None").
Proof.
  rewrite (empty_dataset_breaks_form sample_format world_with_empty_dataset on_load
             (constant_model 15000) empty_df); reflexivity.
Defined.

(** A prediction that is interrupted. *)
Lemma process_raises_iff_witness :
  result (process sample_format interrupted_model (sample_form "À Louer" 100 2)) =
    Raised (Exn BaseException "KeyboardInterrupt").
Proof.
  apply (process_raises_iff sample_format interrupted_model (sample_form "À Louer" 100 2)).
  split_and!; reflexivity.
Defined.

(** A model that returns no prediction. *)
Lemma empty_prediction_reported_witness :
  ∃ msg, process sample_format silent_model (sample_form "À Louer" 100 2) =
           MkRun [call_predict (input_data (sample_form "À Louer" 100 2));
                  st_error ("Error making prediction: " +:+ msg)] (Done tt).
Proof.
  apply (empty_prediction_reported sample_format silent_model (sample_form "À Louer" 100 2));
    reflexivity.
Defined.

(** The form of the sample dataset, submitted untouched. *)
Lemma rendered_choices_witness :
  type_property (sample_form "À Louer" 100 2) = PyStr "À Louer" ∨
  type_property (sample_form "À Louer" 100 2) = PyStr "À Vendre".
Proof.
  apply (rendered_choices sample_format sample_cities sample_lookup untouched_submit
           (sample_form "À Louer" 100 2)).
  reflexivity.
Defined.

Lemma form_fails_only_by_KeyError_witness :
  Forall (λ ev, form_event ev = true) (trace (render_form [] ∅ on_load)).
Proof. apply (form_fails_only_by_KeyError [] ∅ on_load). Defined.


(** The form of the sample dataset as loaded. *)
Lemma form_renders_on_dataset_witness :
  ∃ cities city_to_regions f c r,
    cities_of sample_df = inr cities ∧
    city_to_regions_of sample_df cities = inr city_to_regions ∧
    result (render_form cities city_to_regions on_load) = Done f ∧
    city f = PyStr c ∧ region f = PyStr r ∧
    (c, r) ∈ records ["Tunis"; "Ariana"; "Tunis"; "Tunis"]%string
                     ["La Marsa"; "Raoued"; "Autres villes"; "La Marsa"]%string.
Proof.
  destruct (form_renders_on_dataset sample_df
              ["Tunis"; "Ariana"; "Tunis"; "Tunis"]%string
              ["La Marsa"; "Raoued"; "Autres villes"; "La Marsa"]%string)
    as (cities & city_to_regions & Hc & Hd & Hall);
    [reflexivity | reflexivity | reflexivity | discriminate |].
  destruct (Hall on_load) as (f & c & r & H1 & H2 & H3 & H4).
  exists cities, city_to_regions, f, c, r. by split_and!.
Defined.

(** The sample dataset with its rows repeated in another order. *)
Lemma lookup_depends_on_records_witness :
  cities_of sample_df = cities_of shuffled_df ∧
  city_to_regions_of sample_df sample_cities = city_to_regions_of shuffled_df sample_cities.
Proof.
  destruct (lookup_depends_on_records sample_df shuffled_df
              ["Tunis"; "Ariana"; "Tunis"; "Tunis"]%string
              ["La Marsa"; "Raoued"; "Autres villes"; "La Marsa"]%string
              ["Ariana"; "Tunis"; "Tunis"; "Tunis"; "Ariana"]%string
              ["Raoued"; "Autres villes"; "La Marsa"; "Autres villes"; "Raoued"]%string)
    as [Hcities Hlookup]; [reflexivity..| |].
  - intros c r. unfold records. cbn [zip zip_with].
    rewrite !elem_of_cons, !elem_of_nil. tauto.
  - split; [exact Hcities | apply Hlookup].
Defined.
